(** * heat_coil: a shallow embedding of the heating-coil kernel module

    The module drives a heating coil through one GPIO line while a
    watchdog thread samples a MAX6675 thermocouple converter over three
    bit-banged lines.  The embedding below follows [heat_coil.c] function
    by function: the module-scope variables become a record, every kernel
    function becomes a computation in a small state monad, and everything
    the kernel or the hardware decides (the level of the DATA line at each
    clock, the outcome of a user copy, the contents of fresh memory) is an
    explicit argument. *)

From Stdlib Require Import ZArith Lia DecimalString.
From stdpp Require Import base gmap list strings.

Local Open Scope Z_scope.

(** ** Constants of the source *)

Definition CS_PIN : Z := 24.
Definition CLK_PIN : Z := 23.
Definition DATA_PIN : Z := 22.
Definition HEAT_PIN : Z := 6.

Definition TEMP_DEVICE_NAME : string := "heatcoil.temp".
Definition STATUS_DEVICE_NAME : string := "heatcoil.status".

Definition TEMP_MINOR : Z := 0.
Definition STATUS_MINOR : Z := 1.

(** Temperature limits in ticks (1 tick = 0.25 C). *)
Definition TEMP_LIMIT : Z := 2151.
Definition TEMP_LIMIT_2 : Z := 2662.

(** [errno] values of the kernel headers. *)
Definition EFAULT : Z := 14.
Definition EINVAL : Z := 22.

(** ** Observable events

    Every call into the kernel that touches the outside world is recorded,
    newest first, in the [klog] field of the state. *)

Inductive event : Type :=
| EGpioRequest (pin : Z) (label : string)
| EGpioFree (pin : Z)
| EGpioDirOut (pin level : Z)
| EGpioDirIn (pin : Z)
| EGpioSet (pin level : Z)
| EGpioGet (pin level : Z)
| EUsleep (lo hi : Z)
| EPrintk (msg : string)
| ERegister (maj : Z) (name : string)
| EUnregister (maj : Z) (name : string)
| EKthreadCreate (name : string)
| EWakeUp
| EKthreadStop
| EBadRead (index : nat) (size : nat).

(** ** Module state *)

Record state : Type := mkState {
  heating : Z;              (* static int heating = 0; *)
  temp : Z;                 (* static u16 temp; *)
  major : Z;                (* static int major; *)
  watchdog_thread : bool;   (* the task pointer is not NULL *)
  watchdog_awake : bool;    (* wake_up_process was called on it *)
  gpio_level : gmap Z Z;    (* level last driven on each output line *)
  gpio_owned : gset Z;      (* lines requested and not yet freed *)
  klog : list event         (* newest event first *)
}.

(** State of a freshly inserted module: statics are zero-initialised. *)
Definition boot : state :=
  {| heating := 0; temp := 0; major := 0;
     watchdog_thread := false; watchdog_awake := false;
     gpio_level := ∅; gpio_owned := ∅; klog := [] |}.

Definition with_heating (v : Z) (s : state) : state :=
  {| heating := v; temp := temp s; major := major s;
     watchdog_thread := watchdog_thread s; watchdog_awake := watchdog_awake s;
     gpio_level := gpio_level s; gpio_owned := gpio_owned s; klog := klog s |}.

Definition with_temp (v : Z) (s : state) : state :=
  {| heating := heating s; temp := v; major := major s;
     watchdog_thread := watchdog_thread s; watchdog_awake := watchdog_awake s;
     gpio_level := gpio_level s; gpio_owned := gpio_owned s; klog := klog s |}.

Definition with_major (v : Z) (s : state) : state :=
  {| heating := heating s; temp := temp s; major := v;
     watchdog_thread := watchdog_thread s; watchdog_awake := watchdog_awake s;
     gpio_level := gpio_level s; gpio_owned := gpio_owned s; klog := klog s |}.

Definition with_thread (created awake : bool) (s : state) : state :=
  {| heating := heating s; temp := temp s; major := major s;
     watchdog_thread := created; watchdog_awake := awake;
     gpio_level := gpio_level s; gpio_owned := gpio_owned s; klog := klog s |}.

Definition with_level (pin level : Z) (s : state) : state :=
  {| heating := heating s; temp := temp s; major := major s;
     watchdog_thread := watchdog_thread s; watchdog_awake := watchdog_awake s;
     gpio_level := <[pin := level]> (gpio_level s);
     gpio_owned := gpio_owned s; klog := klog s |}.

Definition with_owned (o : gset Z) (s : state) : state :=
  {| heating := heating s; temp := temp s; major := major s;
     watchdog_thread := watchdog_thread s; watchdog_awake := watchdog_awake s;
     gpio_level := gpio_level s; gpio_owned := o; klog := klog s |}.

Definition with_event (e : event) (s : state) : state :=
  {| heating := heating s; temp := temp s; major := major s;
     watchdog_thread := watchdog_thread s; watchdog_awake := watchdog_awake s;
     gpio_level := gpio_level s; gpio_owned := gpio_owned s;
     klog := e :: klog s |}.

(** The level of the HEAT line, as last driven. *)
Definition heat_line (s : state) : option Z := gpio_level s !! HEAT_PIN.

(** ** The state monad of kernel code *)

Definition M (A : Type) : Type := state → A * state.

Definition ret {A} (a : A) : M A := λ s, (a, s).

Definition bind {A B} (m : M A) (k : A → M B) : M B :=
  λ s, let (a, s') := m s in k a s'.

Definition get {A} (f : state → A) : M A := λ s, (f s, s).
Definition modify (f : state → state) : M unit := λ s, (tt, f s).

Declare Scope kern_scope.
Delimit Scope kern_scope with kern.
Notation "'let*' x ':=' m 'in' k" := (bind m (λ x, k))
  (at level 10, x name, m at level 100, k at level 200) : kern_scope.
Notation "m >> k" := (bind m (λ _, k))
  (at level 90, right associativity) : kern_scope.
Local Open Scope kern_scope.

Fixpoint foldM {A B} (f : B → A → M B) (l : list A) (b : B) : M B :=
  match l with
  | [] => ret b
  | a :: l' => let* b' := f b a in foldM f l' b'
  end.

(** ** Kernel services used by the module *)

Definition printk (msg : string) : M unit := modify (with_event (EPrintk msg)).

Definition usleep_range (lo hi : Z) : M unit := modify (with_event (EUsleep lo hi)).

Definition gpio_request (pin : Z) (label : string) : M unit :=
  modify (λ s, with_event (EGpioRequest pin label)
                 (with_owned ({[pin]} ∪ gpio_owned s) s)).

Definition gpio_free (pin : Z) : M unit :=
  modify (λ s, with_event (EGpioFree pin)
                 (with_owned (gpio_owned s ∖ {[pin]}) s)).

Definition gpio_direction_output (pin level : Z) : M unit :=
  modify (λ s, with_event (EGpioDirOut pin level) (with_level pin level s)).

Definition gpio_direction_input (pin : Z) : M unit :=
  modify (with_event (EGpioDirIn pin)).

Definition gpio_set_value (pin level : Z) : M unit :=
  modify (λ s, with_event (EGpioSet pin level) (with_level pin level s)).

(** Reading an input line: [line] is the level the hardware presents. *)
Definition gpio_get_value (pin line : Z) : M Z :=
  modify (with_event (EGpioGet pin line)) >> ret line.

(** Conversion to [u16] on assignment. *)
Definition u16 (x : Z) : Z := x mod 65536.

(** ** Sensor reader: [temp_data]

    [rd i] is the level of the DATA line while CLK is high in iteration
    [i] of the loop. *)

Definition clock_bit (rd : nat → Z) (data : Z) (i : nat) : M Z :=
  gpio_set_value CLK_PIN 1 >>
  usleep_range (1000 * 10) (1000 * 12) >>
  let data := u16 (Z.shiftl data 1) in
  let* v := gpio_get_value DATA_PIN (rd i) in
  let data := if v =? 1 then u16 (Z.lor data 1) else data in
  gpio_set_value CLK_PIN 0 >>
  usleep_range (1000 * 10) (1000 * 12) >>
  ret data.

Definition temp_data (rd : nat → Z) : M Z :=
  gpio_set_value CS_PIN 0 >>
  let* data := foldM (clock_bit rd) (seq 0 16) 0 in
  gpio_set_value CS_PIN 1 >>
  ret (u16 (Z.land (Z.shiftr data 3) 4095)).

(** The DATA line of a sensor that clocks out the 16-bit frame [F], most
    significant bit first. *)
Definition frame_line (F : Z) (i : nat) : Z :=
  if Z.testbit F (15 - Z.of_nat i) then 1 else 0.

(** ** Coil actuator *)

Definition turn_heating_coil_on : M unit :=
  let* t := get temp in
  if TEMP_LIMIT <? t then ret tt
  else
    modify (with_heating 1) >>
    let* h := get heating in
    gpio_set_value HEAT_PIN h >>
    printk "heating coil was turned on\n".

Definition turn_heating_coil_off : M unit :=
  gpio_set_value HEAT_PIN 0 >>
  modify (with_heating 0) >>
  printk "heating coil was turned off\n".

(** ** Watchdog *)

Definition THERMAL_MSG : string :=
  "THERMAL LIMIT EXCEEDED, TURNING OFF HEATING COIL\n".

(** One pass through the body of the [while] loop of [watchdog_fn], up to
    the wait for the next deadline. *)
Definition watchdog_body (rd : nat → Z) : M unit :=
  let* t := temp_data rd in
  modify (with_temp t) >>
  let* t' := get temp in
  let* h := get heating in
  if (TEMP_LIMIT_2 <? t') && negb (h =? 0) then
    printk THERMAL_MSG >>
    turn_heating_coil_off
  else ret tt.

(** [watchdog_fn]: the loop runs one body per frame until
    [kthread_should_stop] (or a pending signal) ends it; the list holds
    the frames of the iterations that take place. *)
Fixpoint watchdog_fn (frames : list (nat → Z)) : M Z :=
  match frames with
  | [] => ret 0
  | rd :: rest => watchdog_body rd >> watchdog_fn rest
  end.

(** ** Formatting and user copies

    Characters are their codes; [sprintf] writes the formatted text and a
    terminating NUL. *)

Definition NUL : Z := 0.
Definition NL : Z := 10.
Definition CH0 : Z := 48.
Definition CH1 : Z := 49.
Definition MINUS : Z := 45.

Fixpoint utoa_aux (fuel : nat) (n : Z) (acc : list Z) : list Z :=
  match fuel with
  | O => acc
  | S fuel' =>
      let acc' := (CH0 + n mod 10) :: acc in
      if n / 10 =? 0 then acc' else utoa_aux fuel' (n / 10) acc'
  end.

(** Decimal digits of a non-negative number, most significant first. *)
Definition utoa (n : Z) : list Z := utoa_aux 20 n [].

(** ["%d"] *)
Definition itoa (n : Z) : list Z :=
  if n <? 0 then MINUS :: utoa (- n) else utoa n.

(** ["%hu\n"] and ["%d\n"], with the terminating NUL. *)
Definition fmt_hu_nl (v : Z) : list Z := utoa (u16 v) ++ [NL; NUL].
Definition fmt_d_nl (v : Z) : list Z := itoa v ++ [NL; NUL].

(** A local [char] array of [size] bytes starts with whatever the stack
    holds ([junk i] at offset [i]); [sprintf] then writes [out] from offset
    0.  What [out] has beyond [size] falls outside the array. *)
Definition sprintf_into (size : nat) (junk : nat → Z) (out : list Z) : list Z :=
  take size (out ++ drop (length out) (map junk (seq 0 size))).

(** [copy_to_user (to, from, n)]: [missed] bytes could not be copied; the
    pair is the return value and what reached the client. *)
Definition copy_to_user (from : list Z) (n missed : nat) : Z * list Z :=
  (Z.of_nat missed, take (n - missed) from).

(** [kmalloc (len)] when it hands back memory: [len] bytes of unspecified
    content.  What else it can hand back is in [Kernel.kmalloc] below. *)
Definition kmalloc (len : nat) (heap : nat → Z) : list Z := map heap (seq 0 len).

(** [copy_from_user (to, from, n)]: [missed] bytes could not be copied
    and are zeroed in the destination; the pair is the return value and
    the destination afterwards. *)
Definition copy_from_user (to from : list Z) (n missed : nat) : Z * list Z :=
  (Z.of_nat missed,
   take (n - missed) from ++ replicate (length to - (n - missed)) 0).

(** [arr[i]] in memory the kernel handed out: inside the array the stored
    byte; past its end the access is recorded and yields whatever lies
    there.  A read through a pointer that is no memory at all is in
    [Kernel.read_char] below. *)
Definition read_char (arr : list Z) (beyond : nat → Z) (i : nat) : M Z :=
  match arr !! i with
  | Some c => ret c
  | None => modify (with_event (EBadRead i (length arr))) >> ret (beyond i)
  end.

(** ** File operations *)

Definition dev_open (minor : Z) : M Z := ret 0.

(** [buffer] is the client's data, [len] its length; [heap] is the content
    of the fresh allocation and [missed] what [copy_from_user] returns. *)
Definition dev_write (minor : Z) (buffer : list Z) (heap : nat → Z)
    (missed : nat) : M Z :=
  let len := length buffer in
  let user_input := kmalloc len heap in
  let user_input := snd (copy_from_user user_input buffer len missed) in
  if minor =? TEMP_MINOR then ret (Z.of_nat len)
  else if minor =? STATUS_MINOR then
    let* c := read_char user_input heap 0 in
    (if c =? CH1 then turn_heating_coil_on else turn_heating_coil_off) >>
    ret (Z.of_nat len)
  else ret (Z.of_nat len).

(** The result pairs the return value with the bytes that reached the
    client; [stack] is the prior content of the local array and [missed]
    what [copy_to_user] returns. *)
Definition dev_read (minor : Z) (stack : nat → Z) (missed : nat) : M (Z * list Z) :=
  if minor =? TEMP_MINOR then
    let* t := get temp in
    let temp_string := sprintf_into 5 stack (fmt_hu_nl t) in
    let '(r, out) := copy_to_user temp_string 5 missed in
    ret (if r =? 0 then 5 else - EFAULT, out)
  else if minor =? STATUS_MINOR then
    let* h := get heating in
    let status_string := sprintf_into 2 stack (fmt_d_nl h) in
    let '(r, out) := copy_to_user status_string 2 missed in
    ret (if r =? 0 then 2 else - EFAULT, out)
  else ret (- EFAULT, []).

Definition dev_release (minor : Z) : M Z :=
  (if minor =? STATUS_MINOR then turn_heating_coil_off else ret tt) >>
  ret 0.

(** ** Lifecycle *)

Definition gpio_init : M unit :=
  printk "starting GPIO setup ...\n" >>
  gpio_request CS_PIN "CS" >>
  gpio_request CLK_PIN "CLK" >>
  gpio_request DATA_PIN "DATA" >>
  gpio_request HEAT_PIN "HEAT" >>
  gpio_direction_output HEAT_PIN 0 >>
  gpio_direction_output CS_PIN 1 >>
  gpio_direction_output CLK_PIN 0 >>
  gpio_direction_input DATA_PIN >>
  printk "... finished setting up GPIO\n".

Definition gpio_exit : M unit :=
  printk "freeing GPIO ...\n" >>
  gpio_free CS_PIN >>
  gpio_free CLK_PIN >>
  gpio_free DATA_PIN >>
  gpio_free HEAT_PIN >>
  printk "... GPIO freed\n".

(** [res] is what the kernel answers. *)
Definition register_chrdev (req : Z) (name : string) (res : Z) : M Z :=
  modify (with_event (ERegister req name)) >> ret res.

Definition unregister_chrdev (maj : Z) (name : string) : M unit :=
  modify (with_event (EUnregister maj name)).

(** [created] tells whether the pointer handed back is a task the module
    may wake; the pointers the kernel really hands back are in
    [Kernel.kthread_create] below. *)
Definition kthread_create (name : string) (created : bool) : M bool :=
  modify (with_event (EKthreadCreate name)) >> ret created.

Definition wake_up_process : M unit :=
  modify (λ s, with_event EWakeUp (with_thread (watchdog_thread s) true s)).

(** [kthread_stop] raises the stop flag and waits for the thread to leave
    [watchdog_fn]; [pending] holds the frames of the iterations the thread
    still completes before it sees the flag. *)
Definition kthread_stop (pending : list (nat → Z)) : M unit :=
  modify (with_event EKthreadStop) >>
  let* awake := get watchdog_awake in
  (if awake then watchdog_fn pending >> ret tt else ret tt) >>
  modify (λ s, with_thread (watchdog_thread s) false s).

(** [reg] is the answer to the registration of the TEMP name. *)
Definition coil_init (reg : Z) (created : bool) : M Z :=
  let* m := register_chrdev 0 TEMP_DEVICE_NAME reg in
  modify (with_major m) >>
  let* mj := get major in
  (if 0 <? mj then register_chrdev mj STATUS_DEVICE_NAME 0 >> ret tt
   else ret tt) >>
  if mj <? 0 then
    printk "heater coil module load failed\n" >>
    ret mj
  else
    gpio_init >>
    let* th := kthread_create "heater_watchdog_thread" created in
    modify (λ s, with_thread th (watchdog_awake s) s) >>
    let* th' := get watchdog_thread in
    (if th' then wake_up_process else ret tt) >>
    printk "heater coil module has been loaded: %d\n" >>
    ret 0.

Definition coil_exit (pending : list (nat → Z)) : M unit :=
  let* mj := get major in
  unregister_chrdev mj TEMP_DEVICE_NAME >>
  unregister_chrdev mj STATUS_DEVICE_NAME >>
  kthread_stop pending >>
  gpio_exit >>
  printk "heater coil module has been unloaded\n".

(** ** The loaded module as a transition system

    Between load and unload the state changes through the file operations
    of the clients and through the iterations of the watchdog, which take
    place only when the thread was created and woken. *)

Inductive call : Type :=
| COpen (minor : Z)
| CRead (minor : Z) (stack : nat → Z) (missed : nat)
| CWrite (minor : Z) (buffer : list Z) (heap : nat → Z) (missed : nat)
| CRelease (minor : Z)
| CSample (rd : nat → Z).

Definition exec (c : call) : M Z :=
  match c with
  | COpen minor => dev_open minor
  | CRead minor stack missed => let* r := dev_read minor stack missed in ret (fst r)
  | CWrite minor buffer heap missed => dev_write minor buffer heap missed
  | CRelease minor => dev_release minor
  | CSample rd =>
      let* awake := get watchdog_awake in
      if awake then watchdog_body rd >> ret 0 else ret 0
  end.

Definition run (cs : list call) (s : state) : state :=
  foldl (λ s c, snd (exec c s)) s cs.

(** ** The calls with the kernel's answers

    The definitions above follow a call in which the kernel hands out the
    memory, the lines and the thread the module asks for.  The kernel can
    answer otherwise, and the source checks none of these answers:
    [kmalloc] gives the zero-size pointer for a request of no bytes and
    NULL when it has no memory; [gpio_request] can turn a line down;
    [kthread_create] gives an error pointer, never NULL, when it fails.  A
    read or write through a pointer that is no memory, and a wake-up of a
    pointer that is no task, fault: the call stops there and never
    returns.  The module [Kernel] gives the calls concerned with these
    answers as arguments. *)

Definition EBUSY : Z := 16.
Definition ENOMEM : Z := 12.

(** What [kmalloc] hands back. *)
Inductive kptr : Type :=
| KNull                       (* NULL: no memory *)
| KZeroSize                   (* ZERO_SIZE_PTR: a request of 0 bytes *)
| KBuf (bytes : list Z).      (* memory with this content *)

(** What [kthread_create] hands back, as a [task_struct *]. *)
Inductive task_ptr : Type :=
| TaskNull                    (* NULL *)
| TaskErr (errno : Z)         (* ERR_PTR (-errno) *)
| TaskAt (addr : Z).          (* a task *)

Inductive fault : Type :=
| FaultCopyTo (to : kptr)             (* copy_from_user into no memory *)
| FaultRead (p : kptr) (index : nat)  (* p[index] where p is no memory *)
| FaultWake (task : task_ptr).        (* wake_up_process on no task *)

(** A call returns a value, or faults and does not return; in both cases
    the module is left in a state. *)
Inductive outcome (A : Type) : Type :=
| Returns (a : A) (s : state)
| Oops (f : fault) (s : state).

Arguments Returns {A} a s.
Arguments Oops {A} f s.

Definition K (A : Type) : Type := state → outcome A.

Definition kret {A} (a : A) : K A := λ s, Returns a s.

Definition oops {A} (f : fault) : K A := λ s, Oops f s.

Definition kbind {A B} (m : K A) (k : A → K B) : K B :=
  λ s, match m s with
       | Returns a s' => k a s'
       | Oops f s' => Oops f s'
       end.

(** Code that cannot fault. *)
Definition lift {A} (m : M A) : K A := λ s, let (a, s') := m s in Returns a s'.

Notation "'let!' x ':=' m 'in' k" := (kbind m (λ x, k))
  (at level 10, x name, m at level 100, k at level 200) : kern_scope.
Notation "m >>! k" := (kbind m (λ _, k))
  (at level 90, right associativity) : kern_scope.

Module Kernel.

(** [ok] tells whether memory was available. *)
Definition kmalloc (len : nat) (ok : bool) (heap : nat → Z) : kptr :=
  match len with
  | O => KZeroSize
  | S _ => if ok then KBuf (kmalloc len heap) else KNull
  end.

(** Nothing is touched when [n] is 0; otherwise the destination is
    written to. *)
Definition copy_from_user (to : kptr) (from : list Z) (n missed : nat)
    : K (Z * kptr) :=
  match n, to with
  | O, _ => kret (0, to)
  | S _, KBuf bytes =>
      kret (fst (copy_from_user bytes from n missed),
            KBuf (snd (copy_from_user bytes from n missed)))
  | S _, _ => oops (FaultCopyTo to)
  end.

Definition read_char (p : kptr) (beyond : nat → Z) (i : nat) : K Z :=
  match p with
  | KBuf bytes => lift (read_char bytes beyond i)
  | _ => oops (FaultRead p i)
  end.

(** [kfree] takes NULL and the zero-size pointer without harm and is left
    out, as above. *)
Definition dev_write (minor : Z) (buffer : list Z) (heap : nat → Z)
    (missed : nat) (ok : bool) : K Z :=
  let len := length buffer in
  let user_input := kmalloc len ok heap in
  let! r := copy_from_user user_input buffer len missed in
  let user_input := snd r in
  if minor =? TEMP_MINOR then kret (Z.of_nat len)
  else if minor =? STATUS_MINOR then
    let! c := read_char user_input heap 0 in
    lift (if c =? CH1 then turn_heating_coil_on else turn_heating_coil_off) >>!
    kret (Z.of_nat len)
  else kret (Z.of_nat len).

(** [granted] tells whether the line was free. *)
Definition gpio_request (pin : Z) (label : string) (granted : bool) : M Z :=
  if granted then
    modify (λ s, with_event (EGpioRequest pin label)
                   (with_owned ({[pin]} ∪ gpio_owned s) s)) >>
    ret 0
  else
    modify (with_event (EGpioRequest pin label)) >>
    ret (- EBUSY).

(** The results of the requests are dropped and the lines are configured
    whether or not they were granted. *)
Definition gpio_init (granted : Z → bool) : M unit :=
  printk "starting GPIO setup ...\n" >>
  gpio_request CS_PIN "CS" (granted CS_PIN) >>
  gpio_request CLK_PIN "CLK" (granted CLK_PIN) >>
  gpio_request DATA_PIN "DATA" (granted DATA_PIN) >>
  gpio_request HEAT_PIN "HEAT" (granted HEAT_PIN) >>
  gpio_direction_output HEAT_PIN 0 >>
  gpio_direction_output CS_PIN 1 >>
  gpio_direction_output CLK_PIN 0 >>
  gpio_direction_input DATA_PIN >>
  printk "... finished setting up GPIO\n".

Definition kthread_create (name : string) (task : task_ptr) : M task_ptr :=
  modify (with_event (EKthreadCreate name)) >> ret task.

Definition wake_up_process (task : task_ptr) : K unit :=
  match task with
  | TaskAt _ => lift wake_up_process
  | _ => oops (FaultWake task)
  end.

(** [if (watchdog_thread)] *)
Definition not_null (task : task_ptr) : bool :=
  match task with TaskNull => false | _ => true end.

Definition coil_init (reg : Z) (granted : Z → bool) (task : task_ptr) : K Z :=
  let! m := lift (register_chrdev 0 TEMP_DEVICE_NAME reg) in
  lift (modify (with_major m)) >>!
  let! mj := lift (get major) in
  lift (if 0 <? mj then register_chrdev mj STATUS_DEVICE_NAME 0 >> ret tt
        else ret tt) >>!
  if mj <? 0 then
    lift (printk "heater coil module load failed\n") >>!
    kret mj
  else
    lift (gpio_init granted) >>!
    let! th := lift (kthread_create "heater_watchdog_thread" task) in
    lift (modify (λ s, with_thread (not_null th) (watchdog_awake s) s)) >>!
    (if not_null th then wake_up_process th else kret tt) >>!
    lift (printk "heater coil module has been loaded: %d\n") >>!
    kret 0.

End Kernel.

(** The module once [coil_init] has registered its names. *)
Definition after_registration (reg : Z) (s : state) : state :=
  snd ((if 0 <? reg then register_chrdev reg STATUS_DEVICE_NAME 0 >> ret tt
        else ret tt)
         (with_major reg (with_event (ERegister 0 TEMP_DEVICE_NAME) s))).

(** The module once [coil_init] has set up the lines and asked for the
    thread. *)
Definition after_thread (reg : Z) (granted : Z → bool) (task : task_ptr)
    (s : state) : state :=
  snd (Kernel.kthread_create "heater_watchdog_thread" task
         (snd (Kernel.gpio_init granted (after_registration reg s)))).

(** Every line is free. *)
Definition all_granted : Z → bool := λ _, true.

(** The module at the point where a load stops when [kthread_create] had
    no memory for the thread. *)
Definition stuck : state :=
  match Kernel.coil_init 240 all_granted (TaskErr ENOMEM) boot with
  | Returns _ s => s
  | Oops _ s => s
  end.

(** ** Notions used in the statements *)

(** What one clock of the loop does to [data], given the DATA level. *)
Definition shift_in (data line : Z) : Z :=
  let d := u16 (Z.shiftl data 1) in
  if line =? 1 then u16 (Z.lor d 1) else d.

(** The 16 bits as accumulated by the loop. *)
Definition raw_frame (rd : nat → Z) : Z :=
  fold_left (λ d i, shift_in d (rd i)) (seq 0 16) 0.

(** The part of the state the coil and the endpoints depend on. *)
Definition coil_eq (s s' : state) : Prop :=
  heating s' = heating s ∧ temp s' = temp s ∧ heat_line s' = heat_line s
  ∧ watchdog_awake s' = watchdog_awake s.

(** The decimal numeral of a non-negative number as the standard library
    prints it, as character codes. *)
Definition decimal (n : Z) : list Z :=
  map (λ a, Z.of_nat (Ascii.nat_of_ascii a))
      (String.list_ascii_of_string (NilZero.string_of_uint (N.to_uint (Z.to_N n)))).

(** [utoa] agrees with [decimal] on [n] and needs at most four digits. *)
Definition utoa_ok (n : nat) : bool :=
  bool_decide (utoa (Z.of_nat n) = decimal (Z.of_nat n))
  && bool_decide (length (utoa (Z.of_nat n)) ≤ 4)%nat.

(** Memory that reads as zero everywhere. *)
Definition zeroed : nat → Z := λ _, 0.

(** The module after a successful load with a running watchdog. *)
Definition loaded : state := snd (coil_init 240 true boot).

(** The client has engaged the coil at 400 ticks. *)
Definition heated : state :=
  run [CSample (frame_line 3200); CWrite STATUS_MINOR [CH1] zeroed 0] loaded.

(** The coil is on and the sensor has since reported 2200 ticks, between
    the two limits. *)
Definition warm : state := run [CSample (frame_line 17600)] heated.

(** ** Notions used for the rest of the module *)

(** The ticks [temp_data] returns when the DATA line shows [rd]. *)
Definition sample_of (rd : nat → Z) : Z :=
  Z.land (Z.shiftr (raw_frame rd) 3) 4095.

(** What one clock of the frame does on the lines, in order of time. *)
Definition clock_trace (rd : nat → Z) (i : nat) : list event :=
  [ EGpioSet CLK_PIN 1; EUsleep 10000 12000; EGpioGet DATA_PIN (rd i);
    EGpioSet CLK_PIN 0; EUsleep 10000 12000 ].

(** The whole frame on the lines, in order of time. *)
Definition frame_trace (rd : nat → Z) : list event :=
  [EGpioSet CS_PIN 0] ++ flat_map (clock_trace rd) (seq 0 16)
  ++ [EGpioSet CS_PIN 1].

(** The flag is 0 or 1 and the HEAT line shows it. *)
Definition coil_inv (s : state) : Prop :=
  (heating s = 0 ∨ heating s = 1) ∧ heat_line s = Some (heating s).

(** What only load and unload change. *)
Definition pins_eq (s s' : state) : Prop :=
  gpio_owned s' = gpio_owned s ∧ watchdog_thread s' = watchdog_thread s
  ∧ major s' = major s.

(** Number of decimal digits of a number below 10000. *)
Definition digits_of (n : Z) : nat :=
  if n <? 10 then 1 else if n <? 100 then 2 else if n <? 1000 then 3 else 4.

Definition utoa_len_ok (n : nat) : bool :=
  bool_decide (length (utoa (Z.of_nat n)) = digits_of (Z.of_nat n)).

(** What [gpio_init] does, in order of time. *)
Definition gpio_init_trace : list event :=
  [ EPrintk "starting GPIO setup ...\n";
    EGpioRequest CS_PIN "CS"; EGpioRequest CLK_PIN "CLK";
    EGpioRequest DATA_PIN "DATA"; EGpioRequest HEAT_PIN "HEAT";
    EGpioDirOut HEAT_PIN 0; EGpioDirOut CS_PIN 1; EGpioDirOut CLK_PIN 0;
    EGpioDirIn DATA_PIN;
    EPrintk "... finished setting up GPIO\n" ].

(** What a successful [coil_init] does, in order of time. *)
Definition coil_init_trace (reg : Z) (created : bool) : list event :=
  [ERegister 0 TEMP_DEVICE_NAME]
  ++ (if 0 <? reg then [ERegister reg STATUS_DEVICE_NAME] else [])
  ++ gpio_init_trace
  ++ [EKthreadCreate "heater_watchdog_thread"]
  ++ (if created then [EWakeUp] else [])
  ++ [EPrintk "heater coil module has been loaded: %d\n"].

(** * Properties *)

(** ** Sensor frames *)

Lemma clock_bit_fst rd d i s : fst (clock_bit rd d i s) = shift_in d (rd i).
Proof. reflexivity. Qed.

Lemma foldM_clock_fst rd l : ∀ d s,
  fst (foldM (clock_bit rd) l d s) = fold_left (λ d i, shift_in d (rd i)) l d.
Proof.
  induction l as [|i l IH]; intros d s; [reflexivity|].
  cbn [foldM fold_left]. unfold bind at 1.
  destruct (clock_bit rd d i s) as [d' s'] eqn:E.
  rewrite IH. f_equal.
  change d' with (fst (d', s')). rewrite <- E. apply clock_bit_fst.
Qed.

Lemma temp_data_fst rd s :
  fst (temp_data rd s) = u16 (Z.land (Z.shiftr (raw_frame rd) 3) 4095).
Proof.
  unfold temp_data, raw_frame. rewrite <- (foldM_clock_fst rd (seq 0 16) 0
    (snd (gpio_set_value CS_PIN 0 s))).
  unfold bind at 1. cbn [gpio_set_value modify snd].
  unfold bind at 1.
  destruct (foldM _ _ _ _) as [d s']. reflexivity.
Qed.

Lemma lor_double_1 m : 0 ≤ m → Z.lor (2 * m) 1 = 2 * m + 1.
Proof. destruct m; [reflexivity | reflexivity | lia]. Qed.

Lemma shift_in_bit q :
  0 ≤ q < 65536 →
  shift_in (q / 2) (if Z.odd q then 1 else 0) = q.
Proof.
  intros Hq. unfold shift_in, u16.
  rewrite Z.shiftl_mul_pow2 by lia. change (2 ^ 1) with 2.
  assert (Hd : 0 ≤ q / 2 < 32768) by (split; [apply Z.div_pos | apply Z.div_lt_upper_bound]; lia).
  rewrite (Z.mod_small (q / 2 * 2)) by lia.
  pose proof (Zdiv2_odd_eqn q) as Hq2. rewrite Z.div2_div in Hq2.
  destruct (Z.odd q); cbv iota in Hq2; [change (1 =? 1) with true | change (0 =? 1) with false]; cbv iota.
  - rewrite (Z.mul_comm (q / 2) 2), lor_double_1 by lia.
    rewrite Z.mod_small; lia.
  - lia.
Qed.

Lemma frame_line_odd F (k : nat) :
  (k < 16)%nat →
  frame_line F k = if Z.odd (F / 2 ^ (15 - Z.of_nat k)) then 1 else 0.
Proof.
  intros Hk. unfold frame_line.
  rewrite Z.testbit_odd, Z.shiftr_div_pow2 by lia. reflexivity.
Qed.

(** After [k] clocks the loop holds the [k] leading bits of the frame. *)
Lemma fold_frame_prefix F (k : nat) :
  0 ≤ F < 65536 → (k ≤ 16)%nat →
  fold_left (λ d i, shift_in d (frame_line F i)) (seq 0 k) 0
  = F / 2 ^ (16 - Z.of_nat k).
Proof.
  intros HF. induction k as [|k IH]; intros Hk.
  - cbn. symmetry. apply Z.div_small. cbn. lia.
  - rewrite seq_S, fold_left_app. cbn [fold_left Nat.add].
    rewrite IH by lia. rewrite frame_line_odd by lia.
    assert (Hpow : 0 < 2 ^ (15 - Z.of_nat k)) by (apply Z.pow_pos_nonneg; lia).
    set (q := F / 2 ^ (15 - Z.of_nat k)).
    assert (Hq : F / 2 ^ (16 - Z.of_nat k) = q / 2).
    { unfold q. rewrite Z.div_div by lia. f_equal.
      replace (16 - Z.of_nat k) with (Z.succ (15 - Z.of_nat k)) by lia.
      rewrite Z.pow_succ_r by lia. lia. }
    rewrite Hq.
    replace (16 - Z.of_nat (S k)) with (15 - Z.of_nat k) by lia.
    apply shift_in_bit. unfold q. split.
    + apply Z.div_pos; lia.
    + apply Z.div_lt_upper_bound; [lia|]. nia.
Qed.

Lemma raw_frame_line F : 0 ≤ F < 65536 → raw_frame (frame_line F) = F.
Proof.
  intros HF. unfold raw_frame. rewrite (fold_frame_prefix F 16) by lia.
  cbn. apply Z.div_1_r.
Qed.

Lemma land_4095_range x : 0 ≤ Z.land x 4095 ≤ 4095.
Proof.
  assert (H : Z.land x 4095 = x mod 4096).
  { change 4095 with (Z.ones 12). rewrite Z.land_ones by lia. reflexivity. }
  rewrite H. pose proof (Z.mod_pos_bound x 4096). lia.
Qed.

Lemma lor_4_range F : 0 ≤ F < 65536 → 0 ≤ Z.lor F 4 < 65536.
Proof.
  intros HF.
  assert (H0 : 0 ≤ Z.lor F 4) by (apply Z.lor_nonneg; lia).
  split; [exact H0|].
  assert (Hne : Z.lor F 4 ≠ 0) by (rewrite Z.lor_eq_0_iff; lia).
  change 65536 with (2 ^ 16). apply Z.log2_lt_pow2; [lia|].
  rewrite Z.log2_lor by lia.
  change (Z.log2 4) with 2.
  destruct (Z.eq_dec F 0) as [->|HF0]; [cbn; lia|].
  assert (Z.log2 F < 16) by (apply Z.log2_lt_pow2; [lia | cbn; lia]).
  lia.
Qed.

(** C5: for every 16-bit frame [F] clocked out most significant bit first,
    [temp_data] returns [(F >> 3) & 0xFFF], a value in 0..4095; the frame
    0x1640 gives 712; and the result is the same whether bit 2 of the frame
    (the open-thermocouple flag) is set or not. *)
Theorem temp_data_decodes_frame (F : Z) (s : state) :
  0 ≤ F < 65536 →
  fst (temp_data (frame_line F) s) = Z.land (Z.shiftr F 3) 4095
  ∧ 0 ≤ fst (temp_data (frame_line F) s) ≤ 4095
  ∧ fst (temp_data (frame_line 5696) s) = 712
  ∧ fst (temp_data (frame_line (Z.lor F 4)) s) = fst (temp_data (frame_line F) s).
Proof.
  intros HF.
  assert (Hdec : ∀ G, 0 ≤ G < 65536 →
            fst (temp_data (frame_line G) s) = Z.land (Z.shiftr G 3) 4095).
  { intros G HG. rewrite temp_data_fst, raw_frame_line by exact HG.
    unfold u16. apply Z.mod_small. pose proof (land_4095_range (Z.shiftr G 3)). lia. }
  split; [|split; [|split]].
  - apply Hdec, HF.
  - rewrite Hdec by exact HF. apply land_4095_range.
  - rewrite Hdec by lia. reflexivity.
  - rewrite (Hdec (Z.lor F 4)) by (apply lor_4_range, HF).
    rewrite Hdec by exact HF.
    rewrite Z.shiftr_lor. change (Z.shiftr 4 3) with 0. rewrite Z.lor_0_r. reflexivity.
Qed.

Lemma temp_data_decodes_frame_witness :
  fst (temp_data (frame_line 3200) boot) = Z.land (Z.shiftr 3200 3) 4095
  ∧ 0 ≤ fst (temp_data (frame_line 3200) boot) ≤ 4095
  ∧ fst (temp_data (frame_line 5696) boot) = 712
  ∧ fst (temp_data (frame_line (Z.lor 3200 4)) boot)
    = fst (temp_data (frame_line 3200) boot).
Proof. apply (temp_data_decodes_frame 3200 boot). lia. Defined.

(** ** Coil actuator *)

Ltac kstep :=
  unfold bind, ret, get, modify, printk, gpio_set_value, usleep_range,
    gpio_get_value; cbn [fst snd].

Lemma bind_eq {A B} (m : M A) (k : A → M B) s :
  bind m k s = k (fst (m s)) (snd (m s)).
Proof. unfold bind. destruct (m s). reflexivity. Qed.

Lemma coil_eq_refl s : coil_eq s s.
Proof. repeat split. Qed.

Lemma coil_eq_trans s1 s2 s3 : coil_eq s1 s2 → coil_eq s2 s3 → coil_eq s1 s3.
Proof. unfold coil_eq. intros (?&?&?&?) (?&?&?&?). repeat split; congruence. Qed.

Lemma heat_line_other pin v s :
  pin ≠ HEAT_PIN →
  heat_line (with_event (EGpioSet pin v) (with_level pin v s)) = heat_line s.
Proof. intros Hne. unfold heat_line. cbn. by rewrite lookup_insert_ne. Qed.

Lemma turn_off_state s :
  let s' := snd (turn_heating_coil_off s) in
  heating s' = 0 ∧ heat_line s' = Some 0 ∧ temp s' = temp s
  ∧ watchdog_awake s' = watchdog_awake s
  ∧ klog s' = EPrintk "heating coil was turned off\n"
              :: EGpioSet HEAT_PIN 0 :: klog s.
Proof.
  cbn. unfold heat_line. cbn. rewrite lookup_insert_eq. repeat split.
Qed.

Lemma turn_on_refused s :
  TEMP_LIMIT < temp s → turn_heating_coil_on s = (tt, s).
Proof.
  intros Ht. unfold turn_heating_coil_on. kstep.
  destruct (Z.ltb_spec TEMP_LIMIT (temp s)); [reflexivity | lia].
Qed.

Lemma turn_on_state s :
  temp s ≤ TEMP_LIMIT →
  let s' := snd (turn_heating_coil_on s) in
  heating s' = 1 ∧ heat_line s' = Some 1 ∧ temp s' = temp s
  ∧ watchdog_awake s' = watchdog_awake s.
Proof.
  intros Ht. unfold turn_heating_coil_on. kstep.
  destruct (Z.ltb_spec TEMP_LIMIT (temp s)); [lia|].
  cbn. unfold heat_line. cbn. rewrite lookup_insert_eq. repeat split.
Qed.

(** A refused or accepted engage never lowers the flag; it raises it only
    at or below the soft limit. *)
Lemma turn_on_rises s :
  heating s = 0 → heating (snd (turn_heating_coil_on s)) ≠ 0 →
  temp s ≤ TEMP_LIMIT.
Proof.
  intros H0 H1. destruct (Z.ltb_spec TEMP_LIMIT (temp s)) as [Hlt|Hle]; [|lia].
  rewrite turn_on_refused in H1 by exact Hlt. cbn in H1. congruence.
Qed.

(** ** Sampling leaves the coil alone *)

Lemma clock_bit_coil rd d i s : coil_eq s (snd (clock_bit rd d i s)).
Proof.
  unfold clock_bit, coil_eq. kstep. cbn. unfold heat_line. cbn.
  rewrite !lookup_insert_ne by (unfold CLK_PIN, HEAT_PIN; lia). repeat split.
Qed.

Lemma foldM_clock_coil rd l : ∀ d s, coil_eq s (snd (foldM (clock_bit rd) l d s)).
Proof.
  induction l as [|i l IH]; intros d s; [apply coil_eq_refl|].
  cbn [foldM]. unfold bind at 1.
  pose proof (clock_bit_coil rd d i s) as H1.
  destruct (clock_bit rd d i s) as [d' s']. cbn [snd] in H1.
  eapply coil_eq_trans; [exact H1 | apply IH].
Qed.

Lemma set_value_coil pin v s :
  pin ≠ HEAT_PIN → coil_eq s (snd (gpio_set_value pin v s)).
Proof.
  intros Hne. unfold coil_eq. cbn [gpio_set_value modify snd].
  rewrite heat_line_other by exact Hne. repeat split.
Qed.

Lemma temp_data_coil rd s : coil_eq s (snd (temp_data rd s)).
Proof.
  unfold temp_data. unfold bind at 1.
  pose proof (set_value_coil CS_PIN 0 s) as H0.
  destruct (gpio_set_value CS_PIN 0 s) as [[] s0]. cbn [snd] in H0.
  unfold bind at 1.
  pose proof (foldM_clock_coil rd (seq 0 16) 0 s0) as H1.
  destruct (foldM _ _ _ _) as [d s1]. cbn [snd] in H1.
  unfold bind at 1.
  pose proof (set_value_coil CS_PIN 1 s1) as H2.
  destruct (gpio_set_value CS_PIN 1 s1) as [[] s2]. cbn [snd ret] in *.
  eapply coil_eq_trans; [apply H0; unfold CS_PIN, HEAT_PIN; lia|].
  eapply coil_eq_trans; [exact H1|].
  apply H2. unfold CS_PIN, HEAT_PIN; lia.
Qed.

(** ** Watchdog *)

Lemma watchdog_body_unfold rd s :
  watchdog_body rd s =
  let r := temp_data rd s in
  let s1 := with_temp (fst r) (snd r) in
  if (TEMP_LIMIT_2 <? fst r) && negb (heating (snd r) =? 0)
  then (printk THERMAL_MSG >> turn_heating_coil_off) s1
  else (tt, s1).
Proof.
  unfold watchdog_body. unfold bind at 1.
  destruct (temp_data rd s) as [t s0]. cbn [fst snd].
  unfold bind at 1 2 3, modify, get. cbn [temp heating with_temp].
  destruct ((TEMP_LIMIT_2 <? t) && negb (heating s0 =? 0)); reflexivity.
Qed.

Lemma watchdog_body_state rd s :
  let s' := snd (watchdog_body rd s) in
  temp s' = fst (temp_data rd s)
  ∧ watchdog_awake s' = watchdog_awake s
  ∧ (TEMP_LIMIT_2 < temp s' → heating s ≠ 0 →
       EPrintk THERMAL_MSG ∈ klog s' ∧ heating s' = 0 ∧ heat_line s' = Some 0)
  ∧ (¬ (TEMP_LIMIT_2 < temp s' ∧ heating s ≠ 0) →
       heating s' = heating s ∧ heat_line s' = heat_line s).
Proof.
  rewrite watchdog_body_unfold.
  destruct (temp_data_coil rd s) as (Hh & _ & Hl & Ha).
  destruct (temp_data rd s) as [t s0]. cbn [fst snd] in *.
  rewrite Hh.
  destruct (Z.ltb_spec TEMP_LIMIT_2 t) as [Hlt|Hle];
    destruct (Z.eqb_spec (heating s) 0) as [H0|H0]; cbn [andb negb].
  - cbn. repeat split; try lia; try tauto; try congruence; try exact Hl.
  - cbn. unfold heat_line. cbn. rewrite lookup_insert_eq.
    repeat split; try congruence; try tauto.
    apply list_elem_of_In. cbn. tauto.
  - cbn. repeat split; try lia; try congruence; try exact Hl.
  - cbn. repeat split; try lia; try congruence; try exact Hl.
Qed.

Lemma watchdog_body_safe rd s :
  let s' := snd (watchdog_body rd s) in
  ¬ (heating s' ≠ 0 ∧ TEMP_LIMIT_2 < temp s').
Proof.
  intros s' [Hh Ht].
  destruct (watchdog_body_state rd s) as (_ & _ & Htrip & Hkeep).
  fold s' in Htrip, Hkeep.
  destruct (Z.eq_dec (heating s) 0) as [H0|H0].
  - destruct Hkeep as [Hk _]; [tauto | congruence].
  - destruct (Htrip Ht H0) as (_ & Hz & _). congruence.
Qed.

Lemma watchdog_fn_cons rd rest s :
  watchdog_fn (rd :: rest) s = watchdog_fn rest (snd (watchdog_body rd s)).
Proof.
  cbn [watchdog_fn]. unfold bind.
  destruct (watchdog_body rd s) as [[] s1]. reflexivity.
Qed.

Lemma watchdog_fn_safe frames : ∀ s,
  frames ≠ [] →
  let s' := snd (watchdog_fn frames s) in
  ¬ (heating s' ≠ 0 ∧ TEMP_LIMIT_2 < temp s').
Proof.
  induction frames as [|rd rest IH]; intros s Hne; [congruence|].
  rewrite watchdog_fn_cons.
  destruct rest as [|rd' rest'].
  - apply watchdog_body_safe.
  - apply IH. congruence.
Qed.

(** C2: in one pass of the watchdog loop the sample just taken is
    published in [temp]; if it exceeds [TEMP_LIMIT_2] while [heating] is
    set, the over-temperature message is logged and the coil is switched
    off (flag cleared, HEAT low) within the pass; hence after a completed
    pass, and after any non-empty run of the loop, [heating] set together
    with [temp] above 2662 does not occur. *)
Theorem watchdog_enforces_hard_limit (rd : nat → Z) (frames : list (nat → Z))
    (s : state) :
  let s' := snd (watchdog_body rd s) in
  let s'' := snd (watchdog_fn frames s) in
  temp s' = fst (temp_data rd s)
  ∧ (TEMP_LIMIT_2 < temp s' → heating s ≠ 0 →
       EPrintk THERMAL_MSG ∈ klog s' ∧ heating s' = 0 ∧ heat_line s' = Some 0)
  ∧ ¬ (heating s' ≠ 0 ∧ TEMP_LIMIT_2 < temp s')
  ∧ (frames ≠ [] → ¬ (heating s'' ≠ 0 ∧ TEMP_LIMIT_2 < temp s'')).
Proof.
  intros s' s''.
  destruct (watchdog_body_state rd s) as (Ht & _ & Htrip & _).
  split; [exact Ht|]. split; [exact Htrip|]. split.
  - apply watchdog_body_safe.
  - intros Hne. apply watchdog_fn_safe, Hne.
Qed.

Lemma watchdog_enforces_hard_limit_witness :
  (TEMP_LIMIT_2 < temp (snd (watchdog_body (frame_line 21600) heated))
   ∧ heating heated ≠ 0)
  ∧ (EPrintk THERMAL_MSG ∈ klog (snd (watchdog_body (frame_line 21600) heated))
     ∧ heating (snd (watchdog_body (frame_line 21600) heated)) = 0
     ∧ heat_line (snd (watchdog_body (frame_line 21600) heated)) = Some 0)
  ∧ ([frame_line 21600] ≠ [] ∧
     ¬ (heating (snd (watchdog_fn [frame_line 21600] heated)) ≠ 0
        ∧ TEMP_LIMIT_2 < temp (snd (watchdog_fn [frame_line 21600] heated)))).
Proof.
  destruct (watchdog_enforces_hard_limit (frame_line 21600) [frame_line 21600]
              heated) as (_ & Htrip & _ & Hrun).
  assert (Ht : TEMP_LIMIT_2 < temp (snd (watchdog_body (frame_line 21600) heated)))
    by (vm_compute; reflexivity).
  assert (Hh : heating heated ≠ 0) by (vm_compute; discriminate).
  assert (Hne : [frame_line 21600] ≠ []) by discriminate.
  split; [split; [exact Ht | exact Hh]|].
  split; [exact (Htrip Ht Hh)|].
  split; [exact Hne | exact (Hrun Hne)].
Defined.

(** ** File operations and the coil *)

Lemma with_event_coil e s : coil_eq s (with_event e s).
Proof. repeat split. Qed.

Lemma read_char_coil arr beyond i s : coil_eq s (snd (read_char arr beyond i s)).
Proof.
  unfold read_char. destruct (arr !! i); [apply coil_eq_refl|].
  kstep. apply with_event_coil.
Qed.

(** A write ends in the state it found, possibly one recorded read later,
    or in what the actuator makes of it. *)
Lemma dev_write_cases minor buffer heap missed s :
  ∃ s0, coil_eq s s0 ∧
    (snd (dev_write minor buffer heap missed s) = s0
     ∨ snd (dev_write minor buffer heap missed s) = snd (turn_heating_coil_on s0)
     ∨ snd (dev_write minor buffer heap missed s) = snd (turn_heating_coil_off s0)).
Proof.
  unfold dev_write.
  destruct (minor =? TEMP_MINOR); [exists s; split; [apply coil_eq_refl | by left]|].
  destruct (minor =? STATUS_MINOR); [|exists s; split; [apply coil_eq_refl | by left]].
  rewrite !bind_eq. cbn [ret snd].
  set (r := read_char _ heap 0 s).
  exists (snd r). split; [apply read_char_coil|].
  destruct (fst r =? CH1); [right; left | right; right]; reflexivity.
Qed.

Lemma dev_read_state minor stack missed s :
  snd (dev_read minor stack missed s) = s.
Proof.
  unfold dev_read.
  destruct (minor =? TEMP_MINOR); [reflexivity|].
  destruct (minor =? STATUS_MINOR); reflexivity.
Qed.

Lemma dev_release_state minor s :
  snd (dev_release minor s) = s
  ∨ (minor = STATUS_MINOR
     ∧ snd (dev_release minor s) = snd (turn_heating_coil_off s)).
Proof.
  unfold dev_release.
  destruct (Z.eqb_spec minor STATUS_MINOR) as [->|Hne]; [right; split | left]; reflexivity.
Qed.

Lemma exec_read_state minor stack missed s :
  snd (exec (CRead minor stack missed) s) = s.
Proof.
  cbn [exec]. unfold bind.
  pose proof (dev_read_state minor stack missed s) as H.
  destruct (dev_read minor stack missed s) as [r s0]. exact H.
Qed.

Lemma exec_sample_state rd s :
  snd (exec (CSample rd) s)
  = if watchdog_awake s then snd (watchdog_body rd s) else s.
Proof.
  cbn [exec]. unfold bind at 1, get.
  destruct (watchdog_awake s); [|reflexivity].
  unfold bind. destruct (watchdog_body rd s) as [[] s1]. reflexivity.
Qed.

(** No step of the loaded module raises [heating] above the soft limit. *)
Lemma exec_rises c s :
  heating s = 0 → heating (snd (exec c s)) ≠ 0 → temp s ≤ TEMP_LIMIT.
Proof.
  intros H0 H1. destruct c as [minor|minor stack missed|minor buffer heap missed|minor|rd].
  - cbn in H1. congruence.
  - rewrite exec_read_state in H1. congruence.
  - cbn [exec] in H1.
    destruct (dev_write_cases minor buffer heap missed s) as (s0 & (Hh & Ht & _) & [E|[E|E]]);
      rewrite E in H1.
    + congruence.
    + rewrite <- Ht. apply turn_on_rises; [congruence | exact H1].
    + destruct (turn_off_state s0) as (Hz & _). congruence.
  - cbn [exec] in H1. destruct (dev_release_state minor s) as [E|[_ E]]; rewrite E in H1.
    + congruence.
    + destruct (turn_off_state s) as (Hz & _). congruence.
  - rewrite exec_sample_state in H1. destruct (watchdog_awake s); [|congruence].
    destruct (watchdog_body_state rd s) as (_ & _ & _ & Hkeep).
    destruct Hkeep as [Hk _]; [intros [_ Hn]; congruence | congruence].
Qed.

(** C3 (as amended): while [temp] is above [TEMP_LIMIT] an engage request
    returns without effect, so a coil that is off stays off and HEAT stays
    low; no step of the module takes [heating] from clear to set unless
    [temp] is at most 2151; at exactly 2151 the request engages. *)
Theorem engage_respects_soft_limit (c : call) (s : state) :
  (TEMP_LIMIT < temp s →
     turn_heating_coil_on s = (tt, s)
     ∧ (heating s = 0 → heating (snd (turn_heating_coil_on s)) = 0)
     ∧ (heat_line s = Some 0 → heat_line (snd (turn_heating_coil_on s)) = Some 0))
  ∧ (heating s = 0 → heating (snd (exec c s)) ≠ 0 → temp s ≤ TEMP_LIMIT)
  ∧ (temp s = TEMP_LIMIT →
     heating (snd (turn_heating_coil_on s)) = 1
     ∧ heat_line (snd (turn_heating_coil_on s)) = Some 1).
Proof.
  split; [|split].
  - intros Ht. rewrite turn_on_refused by exact Ht. cbn [snd]. tauto.
  - apply exec_rises.
  - intros Ht. destruct (turn_on_state s) as (Hh & Hl & _); [lia|]. tauto.
Qed.

Lemma engage_respects_soft_limit_witness :
  TEMP_LIMIT < temp (with_temp 2200 loaded)
  ∧ turn_heating_coil_on (with_temp 2200 loaded) = (tt, with_temp 2200 loaded)
  ∧ (heating (with_temp 2151 loaded) = 0
     ∧ heating (snd (exec (CWrite STATUS_MINOR [CH1] zeroed 0)
                       (with_temp 2151 loaded))) ≠ 0
     ∧ temp (with_temp 2151 loaded) ≤ TEMP_LIMIT)
  ∧ (temp (with_temp 2151 loaded) = TEMP_LIMIT
     ∧ heating (snd (turn_heating_coil_on (with_temp 2151 loaded))) = 1).
Proof.
  pose proof (engage_respects_soft_limit (CWrite STATUS_MINOR [CH1] zeroed 0)
                (with_temp 2200 loaded)) as (Hhot & _).
  pose proof (engage_respects_soft_limit (CWrite STATUS_MINOR [CH1] zeroed 0)
                (with_temp 2151 loaded)) as (_ & Hrise & Hedge).
  assert (Ht : TEMP_LIMIT < temp (with_temp 2200 loaded)) by (vm_compute; reflexivity).
  assert (H0 : heating (with_temp 2151 loaded) = 0) by reflexivity.
  assert (H1 : heating (snd (exec (CWrite STATUS_MINOR [CH1] zeroed 0)
                               (with_temp 2151 loaded))) ≠ 0)
    by (vm_compute; discriminate).
  assert (H2 : temp (with_temp 2151 loaded) = TEMP_LIMIT) by reflexivity.
  split; [exact Ht|].
  split; [exact (proj1 (Hhot Ht))|].
  split.
  - split; [exact H0|]. split; [exact H1 | exact (Hrise H0 H1)].
  - split; [exact H2 | exact (proj1 (Hedge H2))].
Defined.

(** C3 as stated fails: the coil was engaged at 400 ticks and the sensor
    has since reported 2200 ticks, above the soft limit and below the hard
    one.  An engage request then leaves [heating] set and HEAT high, not
    clear and low. *)
Lemma engage_above_soft_limit_keeps_heat_on :
  TEMP_LIMIT < temp warm
  ∧ heating (snd (exec (CWrite STATUS_MINOR [CH1] zeroed 0) warm)) = 1
  ∧ heat_line (snd (exec (CWrite STATUS_MINOR [CH1] zeroed 0) warm)) = Some 1
  ∧ ¬ (∀ s, TEMP_LIMIT < temp s →
         heating (snd (turn_heating_coil_on s)) = 0
         ∧ heat_line (snd (turn_heating_coil_on s)) = Some 0).
Proof.
  assert (Ht : TEMP_LIMIT < temp warm) by (vm_compute; reflexivity).
  split; [exact Ht|]. split; [reflexivity|]. split; [reflexivity|].
  intros H. destruct (H warm Ht) as [Hh _]. vm_compute in Hh. discriminate.
Qed.

(** ** Closing the STATUS endpoint *)

Lemma run_snoc cs c s : run (cs ++ [c]) s = snd (exec c (run cs s)).
Proof. unfold run. rewrite foldl_app. reflexivity. Qed.

(** C4: closing the STATUS endpoint always calls the switch-off routine;
    after any sequence of calls that ends with that close, [heating] is
    clear and HEAT is low, whatever the temperature and whatever was
    requested before. *)
Theorem status_close_disengages (cs : list call) (s : state) :
  dev_release STATUS_MINOR s = (0, snd (turn_heating_coil_off s))
  ∧ heating (snd (dev_release STATUS_MINOR s)) = 0
  ∧ heat_line (snd (dev_release STATUS_MINOR s)) = Some 0
  ∧ heating (run (cs ++ [CRelease STATUS_MINOR]) s) = 0
  ∧ heat_line (run (cs ++ [CRelease STATUS_MINOR]) s) = Some 0.
Proof.
  assert (E : ∀ s0, dev_release STATUS_MINOR s0 = (0, snd (turn_heating_coil_off s0)))
    by reflexivity.
  rewrite run_snoc. cbn [exec]. rewrite !E. cbn [snd].
  destruct (turn_off_state s) as (H1 & H2 & _).
  destruct (turn_off_state (run cs s)) as (H3 & H4 & _).
  repeat split; assumption.
Qed.

(** ** Reading and writing STATUS *)

Lemma copied_length buffer heap missed :
  length (snd (copy_from_user (kmalloc (length buffer) heap) buffer
                              (length buffer) missed)) = length buffer.
Proof.
  unfold copy_from_user, kmalloc. cbn [snd].
  rewrite length_app, length_take, length_replicate, length_map, length_seq. lia.
Qed.

Lemma copied_head b rest heap :
  snd (copy_from_user (kmalloc (length (b :: rest)) heap) (b :: rest)
                      (length (b :: rest)) 0) !! 0%nat = Some b.
Proof. reflexivity. Qed.

(** With the copy done, a write to STATUS is the actuator call its first
    byte selects. *)
Lemma dev_write_status_head b rest heap s :
  dev_write STATUS_MINOR (b :: rest) heap 0 s
  = (Z.of_nat (length (b :: rest)),
     snd ((if b =? CH1 then turn_heating_coil_on else turn_heating_coil_off) s)).
Proof.
  unfold dev_write. change (STATUS_MINOR =? TEMP_MINOR) with false.
  change (STATUS_MINOR =? STATUS_MINOR) with true. cbv iota.
  rewrite !bind_eq. unfold read_char. rewrite copied_head. reflexivity.
Qed.

Lemma dev_read_status stack s :
  heating s = 0 ∨ heating s = 1 →
  dev_read STATUS_MINOR stack 0 s = ((2, [CH0 + heating s; NL]), s).
Proof.
  unfold dev_read. change (STATUS_MINOR =? TEMP_MINOR) with false.
  change (STATUS_MINOR =? STATUS_MINOR) with true. cbv iota.
  rewrite bind_eq. cbn [get fst snd].
  intros [->| ->]; reflexivity.
Qed.

(** C7: through the STATUS endpoint, a write whose first byte is '1' while
    [temp] is at most the soft limit, followed by a read, gives the two
    bytes "1\n"; a write whose first byte is anything else, followed by a
    read, gives the two bytes "0\n". *)
Theorem status_round_trip (b : Z) (rest : list Z) (heap stack : nat → Z)
    (s : state) :
  (temp s ≤ TEMP_LIMIT →
     fst (dev_read STATUS_MINOR stack 0
            (snd (dev_write STATUS_MINOR (CH1 :: rest) heap 0 s)))
     = (2, [CH1; NL]))
  ∧ (b ≠ CH1 →
     fst (dev_read STATUS_MINOR stack 0
            (snd (dev_write STATUS_MINOR (b :: rest) heap 0 s)))
     = (2, [CH0; NL])).
Proof.
  split.
  - intros Ht. rewrite dev_write_status_head. cbn [snd].
    change (CH1 =? CH1) with true. cbv iota.
    destruct (turn_on_state s Ht) as (Hh & _).
    rewrite dev_read_status by (right; exact Hh). rewrite Hh. reflexivity.
  - intros Hb. rewrite dev_write_status_head. cbn [snd].
    destruct (Z.eqb_spec b CH1) as [|_]; [contradiction|].
    destruct (turn_off_state s) as (Hh & _).
    rewrite dev_read_status by (left; exact Hh). rewrite Hh. reflexivity.
Qed.

Lemma status_round_trip_witness :
  (temp loaded ≤ TEMP_LIMIT ∧
     fst (dev_read STATUS_MINOR zeroed 0
            (snd (dev_write STATUS_MINOR [CH1] zeroed 0 loaded)))
     = (2, [CH1; NL]))
  ∧ (CH0 ≠ CH1 ∧
     fst (dev_read STATUS_MINOR zeroed 0
            (snd (dev_write STATUS_MINOR [CH0] zeroed 0 heated)))
     = (2, [CH0; NL])).
Proof.
  assert (Ht : temp loaded ≤ TEMP_LIMIT) by (vm_compute; discriminate).
  assert (Hb : CH0 ≠ CH1) by discriminate.
  split.
  - split; [exact Ht|].
    exact (proj1 (status_round_trip CH0 [] zeroed zeroed loaded) Ht).
  - split; [exact Hb|].
    exact (proj2 (status_round_trip CH0 [] zeroed zeroed heated) Hb).
Defined.

(** ** Reading TEMP *)

Lemma utoa_ok_all : forallb utoa_ok (seq 0 4096) = true.
Proof. vm_compute. reflexivity. Qed.

Lemma utoa_in_range t :
  0 ≤ t ≤ 4095 → utoa t = decimal t ∧ (length (utoa t) ≤ 4)%nat.
Proof.
  intros Ht. pose proof utoa_ok_all as H.
  rewrite forallb_forall in H. specialize (H (Z.to_nat t)).
  assert (Hin : In (Z.to_nat t) (seq 0 4096)) by (apply in_seq; lia).
  specialize (H Hin). unfold utoa_ok in H. rewrite Z2Nat.id in H by lia.
  apply andb_true_iff in H as [H1 H2].
  apply bool_decide_eq_true in H1. apply bool_decide_eq_true in H2. tauto.
Qed.

(** With at most four digits, the formatted text up to its newline fits the
    five bytes of [temp_string]; what follows is the NUL and stack content. *)
Lemma sprintf_into_5 (junk : nat → Z) (digits : list Z) :
  (length digits ≤ 4)%nat →
  let arr := sprintf_into 5 junk (digits ++ [NL; NUL]) in
  length arr = 5%nat ∧ ∃ pad, arr = digits ++ [NL] ++ pad.
Proof.
  intros Hd arr. unfold arr, sprintf_into. split.
  - rewrite length_take, !length_app, length_drop, length_map, length_seq.
    cbn [length]. lia.
  - replace (digits ++ [NL; NUL]) with ((digits ++ [NL]) ++ [NUL])
      by (rewrite <- app_assoc; reflexivity).
    rewrite <- (app_assoc (digits ++ [NL])).
    rewrite take_app_ge by (rewrite length_app; cbn [length]; lia).
    eexists. rewrite <- app_assoc. reflexivity.
Qed.

Lemma dev_read_temp stack missed s :
  dev_read TEMP_MINOR stack missed s
  = ((if Z.of_nat missed =? 0 then 5 else - EFAULT,
      take (5 - missed) (sprintf_into 5 stack (fmt_hu_nl (temp s)))), s).
Proof. reflexivity. Qed.

(** C8: for [temp] in 0..4095 a read of TEMP whose copy succeeds returns 5
    and hands the client exactly five bytes: the decimal numeral of [temp],
    a newline, and padding; with a copy fault it returns [-EFAULT]; the
    module state is the same afterwards. *)
Theorem temp_read_format (stack : nat → Z) (missed : nat) (s : state) :
  0 ≤ temp s ≤ 4095 →
  fst (fst (dev_read TEMP_MINOR stack 0 s)) = 5
  ∧ length (snd (fst (dev_read TEMP_MINOR stack 0 s))) = 5%nat
  ∧ (∃ pad, snd (fst (dev_read TEMP_MINOR stack 0 s))
            = decimal (temp s) ++ [NL] ++ pad)
  ∧ (missed ≠ 0%nat →
     fst (fst (dev_read TEMP_MINOR stack missed s)) = - EFAULT)
  ∧ snd (dev_read TEMP_MINOR stack missed s) = s.
Proof.
  intros Ht. rewrite !dev_read_temp. cbn [fst snd].
  destruct (utoa_in_range (temp s) Ht) as [Hdec Hlen].
  assert (Hu : u16 (temp s) = temp s) by (unfold u16; apply Z.mod_small; lia).
  unfold fmt_hu_nl. rewrite Hu.
  destruct (sprintf_into_5 stack (utoa (temp s)) Hlen) as [H5 [pad Hpad]].
  change (5 - 0)%nat with 5%nat.
  rewrite (take_ge _ 5) by lia.
  split; [reflexivity|]. split; [exact H5|]. split.
  - exists pad. rewrite <- Hdec. exact Hpad.
  - split; [|reflexivity]. intros Hm.
    destruct (Z.eqb_spec (Z.of_nat missed) 0); [lia | reflexivity].
Qed.

Lemma temp_read_format_witness :
  0 ≤ temp heated ≤ 4095
  ∧ fst (fst (dev_read TEMP_MINOR zeroed 0 heated)) = 5
  ∧ length (snd (fst (dev_read TEMP_MINOR zeroed 0 heated))) = 5%nat
  ∧ (2%nat ≠ 0%nat ∧
     fst (fst (dev_read TEMP_MINOR zeroed 2 heated)) = - EFAULT).
Proof.
  assert (Ht : 0 ≤ temp heated ≤ 4095) by (vm_compute; split; discriminate).
  assert (Hm : 2%nat ≠ 0%nat) by discriminate.
  destruct (temp_read_format zeroed 2 heated Ht) as (H1 & H2 & _ & H4 & _).
  split; [exact Ht|]. split; [exact H1|]. split; [exact H2|].
  split; [exact Hm | exact (H4 Hm)].
Defined.

(** ** Copy faults *)

(** A read whose copy faults reports the fault and changes nothing. *)
Lemma dev_read_fault minor stack missed s :
  missed ≠ 0%nat →
  fst (fst (dev_read minor stack missed s)) = - EFAULT
  ∧ snd (dev_read minor stack missed s) = s.
Proof.
  intros Hm. split; [|apply dev_read_state].
  assert (Hz : (Z.of_nat missed =? 0) = false) by (apply Z.eqb_neq; lia).
  unfold dev_read.
  destruct (minor =? TEMP_MINOR).
  { rewrite bind_eq. cbn [get fst snd copy_to_user ret]. rewrite Hz. reflexivity. }
  destruct (minor =? STATUS_MINOR).
  { rewrite bind_eq. cbn [get fst snd copy_to_user ret]. rewrite Hz. reflexivity. }
  reflexivity.
Qed.

(** A write returns its length whatever [copy_from_user] returned. *)
Lemma dev_write_return minor buffer heap missed s :
  fst (dev_write minor buffer heap missed s) = Z.of_nat (length buffer).
Proof.
  unfold dev_write.
  destruct (minor =? TEMP_MINOR); [reflexivity|].
  destruct (minor =? STATUS_MINOR); [|reflexivity].
  rewrite !bind_eq. reflexivity.
Qed.

(** C6: the coil is on and a client writes "1" to STATUS; the copy from the
    client faults before the first byte.  [dev_write] still inspects
    [user_input[0]], switches the coil off, and returns 1 as if the byte
    had been written. *)
Theorem status_write_fault_reports_success :
  heating heated = 1 ∧ heat_line heated = Some 1
  ∧ fst (dev_write STATUS_MINOR [CH1] zeroed 1 heated) = 1
  ∧ fst (dev_write STATUS_MINOR [CH1] zeroed 1 heated) ≠ - EFAULT
  ∧ heating (snd (dev_write STATUS_MINOR [CH1] zeroed 1 heated)) = 0
  ∧ heat_line (snd (dev_write STATUS_MINOR [CH1] zeroed 1 heated)) = Some 0.
Proof. vm_compute. repeat split; discriminate. Qed.

(** ** Unload *)

(** With the watchdog idle between two samples, nothing in [coil_exit]
    touches the coil. *)
Lemma coil_exit_keeps_coil s :
  heating (snd (coil_exit [] s)) = heating s
  ∧ heat_line (snd (coil_exit [] s)) = heat_line s.
Proof.
  destruct s as [h t mj th [|] lv ow lg]; split; reflexivity.
Qed.

(** C1: the module is unloaded while the coil is on.  [coil_exit]
    unregisters the devices, stops the watchdog and frees the four lines;
    it never writes to HEAT, so the line is still high and [heating] still
    set when the pin has been released. *)
Theorem unload_leaves_heat_high :
  heating heated = 1 ∧ heat_line heated = Some 1
  ∧ heating (snd (coil_exit [] heated)) = 1
  ∧ heat_line (snd (coil_exit [] heated)) = Some 1
  ∧ gpio_owned (snd (coil_exit [] heated)) = ∅
  ∧ klog (snd (coil_exit [] heated))
    = [ EPrintk "heater coil module has been unloaded\n";
        EPrintk "... GPIO freed\n";
        EGpioFree HEAT_PIN; EGpioFree DATA_PIN; EGpioFree CLK_PIN;
        EGpioFree CS_PIN;
        EPrintk "freeing GPIO ...\n";
        EKthreadStop;
        EUnregister 240 STATUS_DEVICE_NAME;
        EUnregister 240 TEMP_DEVICE_NAME ] ++ klog heated.
Proof. vm_compute. repeat split. Qed.

(** ** The module while no watchdog is awake *)

Lemma coil_init_state reg created :
  0 ≤ reg →
  fst (coil_init reg created boot) = 0
  ∧ temp (snd (coil_init reg created boot)) = 0
  ∧ heating (snd (coil_init reg created boot)) = 0
  ∧ watchdog_awake (snd (coil_init reg created boot)) = created.
Proof.
  intros Hr. unfold coil_init. rewrite !bind_eq.
  cbn [register_chrdev modify ret get bind fst snd with_major with_event major].
  destruct (Z.ltb_spec reg 0) as [|_]; [lia|].
  destruct (0 <? reg); destruct created; cbn; repeat split.
Qed.

Lemma turn_on_frame s :
  temp (snd (turn_heating_coil_on s)) = temp s
  ∧ watchdog_awake (snd (turn_heating_coil_on s)) = watchdog_awake s.
Proof.
  destruct (Z.ltb_spec TEMP_LIMIT (temp s)) as [Hlt|Hle].
  - rewrite turn_on_refused by exact Hlt. split; reflexivity.
  - destruct (turn_on_state s Hle) as (_ & _ & Ht & Ha). split; assumption.
Qed.

(** Only the watchdog changes [temp], and no call starts or stops it. *)
Lemma exec_frame c s :
  watchdog_awake (snd (exec c s)) = watchdog_awake s
  ∧ (watchdog_awake s = false → temp (snd (exec c s)) = temp s).
Proof.
  destruct c as [minor|minor stack missed|minor buffer heap missed|minor|rd].
  - split; reflexivity.
  - rewrite exec_read_state. split; reflexivity.
  - cbn [exec].
    destruct (dev_write_cases minor buffer heap missed s)
      as (s0 & (_ & Ht & _ & Ha) & [E|[E|E]]); rewrite E.
    + split; congruence.
    + destruct (turn_on_frame s0) as [Ht' Ha']. split; congruence.
    + destruct (turn_off_state s0) as (_ & _ & Ht' & Ha' & _). split; congruence.
  - cbn [exec]. destruct (dev_release_state minor s) as [E|[_ E]]; rewrite E.
    + split; reflexivity.
    + destruct (turn_off_state s) as (_ & _ & Ht' & Ha' & _). split; congruence.
  - rewrite exec_sample_state. destruct (watchdog_awake s) eqn:Ha.
    + destruct (watchdog_body_state rd s) as (_ & Ha' & _). split; congruence.
    + split; [exact Ha | reflexivity].
Qed.

Lemma run_unwatched cs : ∀ s,
  watchdog_awake s = false →
  watchdog_awake (run cs s) = false ∧ temp (run cs s) = temp s.
Proof.
  induction cs as [|c cs IH]; intros s Ha; [split; [exact Ha | reflexivity]|].
  change (run (c :: cs) s) with (run cs (snd (exec c s))).
  destruct (exec_frame c s) as [Ha' Ht'].
  destruct (IH (snd (exec c s))) as [H1 H2]; [congruence|].
  split; [exact H1|]. rewrite H2. apply Ht', Ha.
Qed.

(** * Further properties of the module *)

(** ** The sensor reader on arbitrary line levels *)

Lemma temp_data_sample rd s : fst (temp_data rd s) = sample_of rd.
Proof.
  rewrite temp_data_fst. unfold u16, sample_of. apply Z.mod_small.
  pose proof (land_4095_range (Z.shiftr (raw_frame rd) 3)). lia.
Qed.

Lemma sample_of_range rd : 0 ≤ sample_of rd ≤ 4095.
Proof. apply land_4095_range. Qed.

Lemma shift_in_double d line :
  0 ≤ d < 32768 → shift_in d line = 2 * d + Z.b2z (line =? 1).
Proof.
  intros Hd. unfold shift_in, u16.
  rewrite Z.shiftl_mul_pow2 by lia. change (2 ^ 1) with 2.
  rewrite (Z.mod_small (d * 2)) by lia.
  destruct (line =? 1); cbn [Z.b2z].
  - rewrite (Z.mul_comm d 2), lor_double_1 by lia. apply Z.mod_small. lia.
  - lia.
Qed.

(** After [k] clocks the accumulator holds the [k] levels seen so far, the
    latest in bit 0. *)
Lemma fold_bits rd (k : nat) :
  (k ≤ 16)%nat →
  let d := fold_left (λ d i, shift_in d (rd i)) (seq 0 k) 0 in
  0 ≤ d < 2 ^ Z.of_nat k
  ∧ ∀ j : nat, (j < k)%nat →
      Z.testbit d (Z.of_nat j) = (rd (k - 1 - j)%nat =? 1).
Proof.
  induction k as [|k IH]; intros Hk.
  - cbn. split; [lia|]. intros j Hj. lia.
  - destruct IH as [Hd Hbits]; [lia|].
    rewrite seq_S, fold_left_app. cbn [fold_left Nat.add].
    set (d := fold_left _ (seq 0 k) 0) in *.
    assert (Hp : 2 ^ Z.of_nat k ≤ 2 ^ 15) by (apply Z.pow_le_mono_r; lia).
    change (2 ^ 15) with 32768 in Hp.
    rewrite shift_in_double by lia.
    split.
    + rewrite Nat2Z.inj_succ, Z.pow_succ_r by lia.
      destruct (rd k =? 1); cbn [Z.b2z]; lia.
    + intros [|j] Hj.
      * change (Z.of_nat 0) with 0. rewrite Z.testbit_0_r.
        replace (S k - 1 - 0)%nat with k by lia. reflexivity.
      * rewrite Nat2Z.inj_succ, Z.testbit_succ_r by lia.
        rewrite Hbits by lia. f_equal. f_equal. lia.
Qed.

Lemma raw_frame_bits rd :
  0 ≤ raw_frame rd < 65536
  ∧ ∀ i : nat, (i < 16)%nat →
      Z.testbit (raw_frame rd) (15 - Z.of_nat i) = (rd i =? 1).
Proof.
  destruct (fold_bits rd 16) as [Hd Hbits]; [lia|]. fold (raw_frame rd) in *.
  split; [exact Hd|]. intros i Hi.
  replace (15 - Z.of_nat i) with (Z.of_nat (15 - i)) by lia.
  rewrite Hbits by lia. f_equal. f_equal. lia.
Qed.

Lemma sample_of_bits rd (n : Z) :
  0 ≤ n →
  Z.testbit (sample_of rd) n
  = if n <? 12 then (rd (Z.to_nat (12 - n)) =? 1) else false.
Proof.
  intros Hn. unfold sample_of. change 4095 with (Z.ones 12).
  rewrite Z.land_ones by lia.
  destruct (Z.ltb_spec n 12) as [Hlt|Hge].
  - rewrite Z.mod_pow2_bits_low by lia. rewrite Z.shiftr_spec by lia.
    destruct (raw_frame_bits rd) as [_ Hbits].
    rewrite <- (Hbits (Z.to_nat (12 - n))) by lia. f_equal. lia.
  - apply Z.mod_pow2_bits_high. lia.
Qed.

(** X2: the value [temp_data] returns depends only on whether the DATA
    line showed exactly 1 at the clocks 1 to 12; the first clock and the
    last three, and the module state, have no influence on it. *)
Theorem temp_data_reads_clocks_1_to_12 (rd rd' : nat → Z) (s s' : state) :
  (∀ i : nat, (1 ≤ i ≤ 12)%nat → (rd i =? 1) = (rd' i =? 1)) →
  fst (temp_data rd s) = fst (temp_data rd' s').
Proof.
  intros Hsame. rewrite !temp_data_sample.
  apply Z.bits_inj'. intros n Hn. rewrite !sample_of_bits by exact Hn.
  destruct (Z.ltb_spec n 12); [|reflexivity]. apply Hsame. lia.
Qed.

Lemma temp_data_reads_clocks_1_to_12_witness :
  (∀ i : nat, (1 ≤ i ≤ 12)%nat →
     (frame_line 3200 i =? 1) = (frame_line (3200 + 32768 + 7) i =? 1))
  ∧ fst (temp_data (frame_line 3200) boot)
    = fst (temp_data (frame_line (3200 + 32768 + 7)) loaded).
Proof.
  assert (H : ∀ i : nat, (1 ≤ i ≤ 12)%nat →
     (frame_line 3200 i =? 1) = (frame_line (3200 + 32768 + 7) i =? 1)).
  { intros i Hi.
    destruct i as [|[|[|[|[|[|[|[|[|[|[|[|[|i]]]]]]]]]]]]];
      first [reflexivity | lia]. }
  split; [exact H|].
  exact (temp_data_reads_clocks_1_to_12 _ _ boot loaded H).
Defined.

(** ** The frame on the lines *)

Lemma clock_bit_klog rd d i s :
  klog (snd (clock_bit rd d i s)) = rev (clock_trace rd i) ++ klog s.
Proof. reflexivity. Qed.

Lemma clock_bit_level rd d i s :
  gpio_level (snd (clock_bit rd d i s)) = <[CLK_PIN := 0]> (gpio_level s).
Proof.
  change (gpio_level (snd (clock_bit rd d i s)))
    with (<[CLK_PIN := 0]> (<[CLK_PIN := 1]> (gpio_level s))).
  apply insert_insert_eq.
Qed.

Lemma foldM_cons {A B} (f : B → A → M B) a l b s :
  foldM f (a :: l) b s = foldM f l (fst (f b a s)) (snd (f b a s)).
Proof. cbn [foldM]. apply bind_eq. Qed.

Lemma foldM_clock_klog rd l : ∀ d s,
  klog (snd (foldM (clock_bit rd) l d s))
  = rev (flat_map (clock_trace rd) l) ++ klog s.
Proof.
  induction l as [|i l IH]; intros d s; [reflexivity|].
  rewrite foldM_cons, IH, clock_bit_klog. cbn [flat_map].
  rewrite rev_app_distr, <- app_assoc. reflexivity.
Qed.

Lemma foldM_clock_level rd l : ∀ d s,
  l ≠ [] →
  gpio_level (snd (foldM (clock_bit rd) l d s)) = <[CLK_PIN := 0]> (gpio_level s).
Proof.
  induction l as [|i l IH]; intros d s Hne; [congruence|].
  rewrite foldM_cons. destruct l as [|j l'].
  - apply clock_bit_level.
  - rewrite IH by discriminate. rewrite clock_bit_level. apply insert_insert_eq.
Qed.

Lemma temp_data_unfold rd s :
  snd (temp_data rd s)
  = snd (gpio_set_value CS_PIN 1
           (snd (foldM (clock_bit rd) (seq 0 16) 0
                   (snd (gpio_set_value CS_PIN 0 s))))).
Proof. unfold temp_data. rewrite !bind_eq. reflexivity. Qed.

Lemma gpio_set_klog pin v s :
  klog (snd (gpio_set_value pin v s)) = EGpioSet pin v :: klog s.
Proof. reflexivity. Qed.

Lemma gpio_set_level pin v s :
  gpio_level (snd (gpio_set_value pin v s)) = <[pin := v]> (gpio_level s).
Proof. reflexivity. Qed.

(** X1: one call of [temp_data] does this on the lines, in this order: CS
    low; sixteen times CLK high, a wait, one read of DATA, CLK low, a wait;
    CS high.  Afterwards CS is high and CLK low, and no other line has
    been driven. *)
Theorem temp_data_frame_protocol (rd : nat → Z) (s : state) :
  klog (snd (temp_data rd s)) = rev (frame_trace rd) ++ klog s
  ∧ gpio_level (snd (temp_data rd s)) !! CS_PIN = Some 1
  ∧ gpio_level (snd (temp_data rd s)) !! CLK_PIN = Some 0
  ∧ ∀ pin, pin ≠ CS_PIN → pin ≠ CLK_PIN →
      gpio_level (snd (temp_data rd s)) !! pin = gpio_level s !! pin.
Proof.
  rewrite temp_data_unfold, gpio_set_klog, gpio_set_level.
  rewrite foldM_clock_klog, foldM_clock_level by discriminate.
  rewrite gpio_set_klog, gpio_set_level.
  split; [|split; [|split]].
  - unfold frame_trace. rewrite !rev_app_distr.
    change (rev [EGpioSet CS_PIN 1]) with [EGpioSet CS_PIN 1].
    change (rev [EGpioSet CS_PIN 0]) with [EGpioSet CS_PIN 0].
    rewrite <- !app_assoc. reflexivity.
  - apply lookup_insert_eq.
  - rewrite lookup_insert_ne by (unfold CS_PIN, CLK_PIN; lia).
    apply lookup_insert_eq.
  - intros pin H1 H2. rewrite !lookup_insert_ne by congruence. reflexivity.
Qed.

Lemma temp_data_frame_protocol_witness :
  HEAT_PIN ≠ CS_PIN ∧ HEAT_PIN ≠ CLK_PIN
  ∧ gpio_level (snd (temp_data (frame_line 3200) heated)) !! HEAT_PIN
    = gpio_level heated !! HEAT_PIN.
Proof.
  assert (H1 : HEAT_PIN ≠ CS_PIN) by discriminate.
  assert (H2 : HEAT_PIN ≠ CLK_PIN) by discriminate.
  split; [exact H1|]. split; [exact H2|].
  exact (proj2 (proj2 (proj2 (temp_data_frame_protocol (frame_line 3200) heated)))
           HEAT_PIN H1 H2).
Defined.

(** ** What the watchdog does to the coil *)

Lemma watchdog_fn_app frames1 : ∀ frames2 s,
  snd (watchdog_fn (frames1 ++ frames2) s)
  = snd (watchdog_fn frames2 (snd (watchdog_fn frames1 s))).
Proof.
  induction frames1 as [|rd rest IH]; intros frames2 s; [reflexivity|].
  cbn [app]. rewrite !watchdog_fn_cons. apply IH.
Qed.

(** A pass either trips, or leaves flag and line as they are. *)
Lemma watchdog_body_cases rd s :
  (TEMP_LIMIT_2 < sample_of rd ∧ heating s ≠ 0
   ∧ heating (snd (watchdog_body rd s)) = 0
   ∧ heat_line (snd (watchdog_body rd s)) = Some 0)
  ∨ (¬ (TEMP_LIMIT_2 < sample_of rd ∧ heating s ≠ 0)
     ∧ heating (snd (watchdog_body rd s)) = heating s
     ∧ heat_line (snd (watchdog_body rd s)) = heat_line s).
Proof.
  destruct (watchdog_body_state rd s) as (Ht & _ & Htrip & Hkeep).
  cbv zeta in Ht, Htrip, Hkeep. rewrite temp_data_sample in Ht.
  rewrite Ht in Htrip, Hkeep.
  destruct (Z_lt_dec TEMP_LIMIT_2 (sample_of rd)) as [Hlt|Hge];
    destruct (Z.eq_dec (heating s) 0) as [H0|H0].
  - right. split; [tauto|]. apply Hkeep. tauto.
  - left. destruct (Htrip Hlt H0) as (_ & Hh & Hl). tauto.
  - right. split; [tauto|]. apply Hkeep. tauto.
  - right. split; [tauto|]. apply Hkeep. tauto.
Qed.

Lemma watchdog_body_temp rd s : temp (snd (watchdog_body rd s)) = sample_of rd.
Proof.
  destruct (watchdog_body_state rd s) as (Ht & _). cbv zeta in Ht.
  rewrite Ht. apply temp_data_sample.
Qed.

(** X3: after a run of the watchdog loop [temp] is the sample of the last
    pass, whatever the earlier passes read and whatever [temp] was. *)
Theorem watchdog_publishes_last_sample (frames : list (nat → Z))
    (rd : nat → Z) (s : state) :
  temp (snd (watchdog_fn (frames ++ [rd]) s)) = sample_of rd
  ∧ 0 ≤ temp (snd (watchdog_fn (frames ++ [rd]) s)) ≤ 4095.
Proof.
  rewrite watchdog_fn_app, watchdog_fn_cons. cbn [watchdog_fn ret snd].
  rewrite watchdog_body_temp. split; [reflexivity | apply sample_of_range].
Qed.

Lemma watchdog_fn_off frames : ∀ s,
  heating s = 0 →
  heating (snd (watchdog_fn frames s)) = 0
  ∧ heat_line (snd (watchdog_fn frames s)) = heat_line s.
Proof.
  induction frames as [|rd rest IH]; intros s H0; [split; [exact H0 | reflexivity]|].
  rewrite watchdog_fn_cons.
  destruct (watchdog_body_cases rd s) as [(_ & Hn & _)|(_ & Hh & Hl)]; [congruence|].
  destruct (IH (snd (watchdog_body rd s))) as [H1 H2]; [congruence|].
  split; congruence.
Qed.

Lemma watchdog_fn_on frames : ∀ s,
  heating (snd (watchdog_fn frames s)) ≠ 0 →
  heating (snd (watchdog_fn frames s)) = heating s
  ∧ heat_line (snd (watchdog_fn frames s)) = heat_line s.
Proof.
  induction frames as [|rd rest IH]; intros s Hon; [split; reflexivity|].
  rewrite watchdog_fn_cons in *.
  destruct (watchdog_body_cases rd s) as [(_ & _ & Hz & _)|(_ & Hh & Hl)].
  - destruct (watchdog_fn_off rest _ Hz) as [Hz' _]. congruence.
  - destruct (IH _ Hon) as [H1 H2]. split; congruence.
Qed.

(** X4: the watchdog loop never switches the coil on.  If [heating] is
    clear at the start it is clear at the end and HEAT was not driven to
    another level, however hot the samples; and if [heating] is set at the
    end, flag and line are what they were at the start. *)
Theorem watchdog_only_switches_off (frames : list (nat → Z)) (s : state) :
  (heating s = 0 →
     heating (snd (watchdog_fn frames s)) = 0
     ∧ heat_line (snd (watchdog_fn frames s)) = heat_line s)
  ∧ (heating (snd (watchdog_fn frames s)) ≠ 0 →
     heating (snd (watchdog_fn frames s)) = heating s
     ∧ heat_line (snd (watchdog_fn frames s)) = heat_line s).
Proof. split; [apply watchdog_fn_off | apply watchdog_fn_on]. Qed.

Lemma watchdog_only_switches_off_witness :
  (heating loaded = 0
   ∧ heating (snd (watchdog_fn [frame_line 21600] loaded)) = 0
   ∧ heat_line (snd (watchdog_fn [frame_line 21600] loaded)) = heat_line loaded)
  ∧ (heating (snd (watchdog_fn [frame_line 3200] heated)) ≠ 0
     ∧ heating (snd (watchdog_fn [frame_line 3200] heated)) = heating heated
     ∧ heat_line (snd (watchdog_fn [frame_line 3200] heated)) = heat_line heated).
Proof.
  assert (H0 : heating loaded = 0) by reflexivity.
  assert (H1 : heating (snd (watchdog_fn [frame_line 3200] heated)) ≠ 0)
    by (vm_compute; discriminate).
  split.
  - split; [exact H0|].
    exact (proj1 (watchdog_only_switches_off [frame_line 21600] loaded) H0).
  - split; [exact H1|].
    exact (proj2 (watchdog_only_switches_off [frame_line 3200] heated) H1).
Defined.

(** X5: samples at or below [TEMP_LIMIT_2] never trip: a run of the loop
    over such samples leaves [heating] and the HEAT line as they were; 2662
    itself does not trip. *)
Theorem watchdog_no_trip_up_to_hard_limit (frames : list (nat → Z)) (s : state) :
  Forall (λ rd, sample_of rd ≤ TEMP_LIMIT_2) frames →
  heating (snd (watchdog_fn frames s)) = heating s
  ∧ heat_line (snd (watchdog_fn frames s)) = heat_line s.
Proof.
  revert s. induction frames as [|rd rest IH]; intros s Hall; [split; reflexivity|].
  inversion Hall as [|? ? Hrd Hrest]; subst.
  rewrite watchdog_fn_cons.
  destruct (watchdog_body_cases rd s) as [(Hlt & _)|(_ & Hh & Hl)]; [lia|].
  destruct (IH (snd (watchdog_body rd s)) Hrest) as [H1 H2]. split; congruence.
Qed.

Lemma watchdog_no_trip_up_to_hard_limit_witness :
  Forall (λ rd, sample_of rd ≤ TEMP_LIMIT_2) [frame_line 21296; frame_line 3200]
  ∧ heating (snd (watchdog_fn [frame_line 21296; frame_line 3200] heated))
    = heating heated
  ∧ heat_line (snd (watchdog_fn [frame_line 21296; frame_line 3200] heated))
    = heat_line heated.
Proof.
  assert (H : Forall (λ rd, sample_of rd ≤ TEMP_LIMIT_2)
                [frame_line 21296; frame_line 3200]).
  { repeat constructor; vm_compute; discriminate. }
  split; [exact H|].
  exact (watchdog_no_trip_up_to_hard_limit _ heated H).
Defined.

(** X9: after a pass whose sample is above [TEMP_LIMIT_2] the coil is off,
    and a write of '1' to STATUS that follows is refused: [heating] stays
    clear and the HEAT line is not driven. *)
Theorem trip_then_engage_refused (rd heap : nat → Z) (rest : list Z) (s : state) :
  TEMP_LIMIT_2 < sample_of rd →
  heating (snd (watchdog_body rd s)) = 0
  ∧ snd (dev_write STATUS_MINOR (CH1 :: rest) heap 0 (snd (watchdog_body rd s)))
    = snd (watchdog_body rd s).
Proof.
  intros Hhot. split.
  - destruct (watchdog_body_cases rd s) as [(_ & _ & Hz & _)|(Hn & Hh & _)];
      [exact Hz|].
    rewrite Hh. destruct (Z.eq_dec (heating s) 0); [assumption | tauto].
  - rewrite dev_write_status_head. cbn [snd].
    change (CH1 =? CH1) with true. cbv iota.
    rewrite turn_on_refused; [reflexivity|].
    rewrite watchdog_body_temp. unfold TEMP_LIMIT, TEMP_LIMIT_2 in *. lia.
Qed.

Lemma trip_then_engage_refused_witness :
  TEMP_LIMIT_2 < sample_of (frame_line 21600)
  ∧ heating (snd (watchdog_body (frame_line 21600) heated)) = 0
  ∧ snd (dev_write STATUS_MINOR [CH1] zeroed 0
           (snd (watchdog_body (frame_line 21600) heated)))
    = snd (watchdog_body (frame_line 21600) heated).
Proof.
  assert (H : TEMP_LIMIT_2 < sample_of (frame_line 21600)) by (vm_compute; reflexivity).
  split; [exact H|].
  exact (trip_then_engage_refused (frame_line 21600) zeroed [] heated H).
Defined.

(** ** What a step of the loaded module can be *)

Lemma pins_eq_refl s : pins_eq s s.
Proof. repeat split. Qed.

Lemma pins_eq_trans s1 s2 s3 : pins_eq s1 s2 → pins_eq s2 s3 → pins_eq s1 s3.
Proof. unfold pins_eq. intros (?&?&?) (?&?&?). repeat split; congruence. Qed.

Lemma read_char_pins arr beyond i s : pins_eq s (snd (read_char arr beyond i s)).
Proof. unfold read_char. destruct (arr !! i); repeat split. Qed.

Lemma turn_off_pins s : pins_eq s (snd (turn_heating_coil_off s)).
Proof. repeat split. Qed.

Lemma turn_on_pins s : pins_eq s (snd (turn_heating_coil_on s)).
Proof.
  unfold turn_heating_coil_on. kstep.
  destruct (TEMP_LIMIT <? temp s); repeat split.
Qed.

Lemma clock_bit_pins rd d i s : pins_eq s (snd (clock_bit rd d i s)).
Proof. unfold pins_eq. split; [|split]; reflexivity. Qed.

Lemma foldM_clock_pins rd l : ∀ d s, pins_eq s (snd (foldM (clock_bit rd) l d s)).
Proof.
  induction l as [|i l IH]; intros d s; [apply pins_eq_refl|].
  rewrite foldM_cons.
  eapply pins_eq_trans; [apply (clock_bit_pins rd d i s) | apply IH].
Qed.

Lemma gpio_set_pins pin v s : pins_eq s (snd (gpio_set_value pin v s)).
Proof. unfold pins_eq. split; [|split]; reflexivity. Qed.

Lemma temp_data_pins rd s : pins_eq s (snd (temp_data rd s)).
Proof.
  rewrite temp_data_unfold.
  eapply pins_eq_trans; [apply (gpio_set_pins CS_PIN 0)|].
  eapply pins_eq_trans; [apply foldM_clock_pins|].
  apply gpio_set_pins.
Qed.

Lemma watchdog_body_pins rd s : pins_eq s (snd (watchdog_body rd s)).
Proof.
  rewrite watchdog_body_unfold. cbv zeta.
  pose proof (temp_data_pins rd s) as H.
  destruct (temp_data rd s) as [t s0]. cbn [fst snd] in *.
  eapply pins_eq_trans; [exact H|].
  destruct ((TEMP_LIMIT_2 <? t) && negb (heating s0 =? 0)); repeat split.
Qed.

Lemma watchdog_fn_pins frames : ∀ s,
  pins_eq s (snd (watchdog_fn frames s))
  ∧ watchdog_awake (snd (watchdog_fn frames s)) = watchdog_awake s.
Proof.
  induction frames as [|rd rest IH]; intros s; [repeat split|].
  rewrite watchdog_fn_cons.
  destruct (IH (snd (watchdog_body rd s))) as [H1 H2].
  destruct (watchdog_body_state rd s) as (_ & Ha & _). cbv zeta in Ha.
  split; [|congruence].
  eapply pins_eq_trans; [apply watchdog_body_pins | exact H1].
Qed.

(** Every step ends in a state that differs from the one it found at most
    in the log, or in what the actuator or a watchdog pass makes of such a
    state. *)
Lemma exec_cases c s :
  ∃ s0, coil_eq s s0 ∧ pins_eq s s0 ∧
    (snd (exec c s) = s0
     ∨ snd (exec c s) = snd (turn_heating_coil_on s0)
     ∨ snd (exec c s) = snd (turn_heating_coil_off s0)
     ∨ ∃ rd, snd (exec c s) = snd (watchdog_body rd s0)).
Proof.
  destruct c as [minor|minor stack missed|minor buffer heap missed|minor|rd].
  - exists s. split; [apply coil_eq_refl|]. split; [apply pins_eq_refl|]. by left.
  - exists s. split; [apply coil_eq_refl|]. split; [apply pins_eq_refl|].
    left. apply exec_read_state.
  - cbn [exec]. unfold dev_write.
    destruct (minor =? TEMP_MINOR);
      [exists s; split; [apply coil_eq_refl|]; split; [apply pins_eq_refl|]; by left|].
    destruct (minor =? STATUS_MINOR);
      [|exists s; split; [apply coil_eq_refl|]; split; [apply pins_eq_refl|]; by left].
    rewrite !bind_eq. cbn [ret snd].
    set (r := read_char _ heap 0 s).
    exists (snd r). split; [apply read_char_coil|]. split; [apply read_char_pins|].
    destruct (fst r =? CH1); [right; left | right; right; left]; reflexivity.
  - exists s. split; [apply coil_eq_refl|]. split; [apply pins_eq_refl|].
    cbn [exec]. destruct (dev_release_state minor s) as [E|[_ E]]; rewrite E.
    + by left.
    + right; right; by left.
  - exists s. split; [apply coil_eq_refl|]. split; [apply pins_eq_refl|].
    rewrite exec_sample_state. destruct (watchdog_awake s).
    + right; right; right. by exists rd.
    + by left.
Qed.

Lemma turn_on_cases s :
  turn_heating_coil_on s = (tt, s)
  ∨ (temp s ≤ TEMP_LIMIT
     ∧ heating (snd (turn_heating_coil_on s)) = 1
     ∧ heat_line (snd (turn_heating_coil_on s)) = Some 1
     ∧ temp (snd (turn_heating_coil_on s)) = temp s).
Proof.
  destruct (Z.ltb_spec TEMP_LIMIT (temp s)) as [Hlt|Hle].
  - left. apply turn_on_refused, Hlt.
  - right. destruct (turn_on_state s Hle) as (H1 & H2 & H3 & _). tauto.
Qed.

Lemma run_cons c cs s : run (c :: cs) s = run cs (snd (exec c s)).
Proof. reflexivity. Qed.

Lemma run_invariant (P : state → Prop) :
  (∀ c s, P s → P (snd (exec c s))) → ∀ cs s, P s → P (run cs s).
Proof.
  intros Hstep. induction cs as [|c cs IH]; intros s Hs; [exact Hs|].
  rewrite run_cons. apply IH, Hstep, Hs.
Qed.

Lemma exec_coil_inv c s : coil_inv s → coil_inv (snd (exec c s)).
Proof.
  unfold coil_inv. intros [Hb Hl].
  destruct (exec_cases c s) as (s0 & (Hh0 & _ & Hl0 & _) & _ & [E|[E|[E|[rd E]]]]);
    rewrite E.
  - rewrite Hh0, Hl0. tauto.
  - destruct (turn_on_cases s0) as [R|(_ & H1 & H2 & _)].
    + rewrite R. cbn [snd]. rewrite Hh0, Hl0. tauto.
    + rewrite H1, H2. tauto.
  - destruct (turn_off_state s0) as (H1 & H2 & _). rewrite H1, H2. tauto.
  - destruct (watchdog_body_cases rd s0) as [(_ & _ & H1 & H2)|(_ & H1 & H2)];
      rewrite H1, H2; [tauto|]. rewrite Hh0, Hl0. tauto.
Qed.

Lemma exec_temp_range c s :
  0 ≤ temp s ≤ 4095 → 0 ≤ temp (snd (exec c s)) ≤ 4095.
Proof.
  intros Ht.
  destruct (exec_cases c s) as (s0 & (_ & Ht0 & _) & _ & [E|[E|[E|[rd E]]]]);
    rewrite E.
  - lia.
  - destruct (turn_on_frame s0) as [H1 _]. lia.
  - destruct (turn_off_state s0) as (_ & _ & H1 & _). lia.
  - rewrite watchdog_body_temp. apply sample_of_range.
Qed.

Lemma exec_hard_limit c s :
  (heating s ≠ 0 → temp s ≤ TEMP_LIMIT_2) →
  heating (snd (exec c s)) ≠ 0 → temp (snd (exec c s)) ≤ TEMP_LIMIT_2.
Proof.
  intros Hs.
  destruct (exec_cases c s) as (s0 & (Hh0 & Ht0 & _) & _ & [E|[E|[E|[rd E]]]]);
    rewrite E.
  - rewrite Hh0, Ht0. exact Hs.
  - destruct (turn_on_cases s0) as [R|(Hle & _ & _ & H3)].
    + rewrite R. cbn [snd]. rewrite Hh0, Ht0. exact Hs.
    + intros _. rewrite H3. unfold TEMP_LIMIT, TEMP_LIMIT_2 in *. lia.
  - destruct (turn_off_state s0) as (H1 & _). congruence.
  - intros Hon. pose proof (watchdog_body_safe rd s0) as Hsafe. cbv zeta in Hsafe.
    destruct (Z_le_gt_dec (temp (snd (watchdog_body rd s0))) TEMP_LIMIT_2);
      [assumption|]. exfalso. apply Hsafe. split; [exact Hon | lia].
Qed.

Lemma exec_pins c s : pins_eq s (snd (exec c s)).
Proof.
  destruct (exec_cases c s) as (s0 & _ & Hp & [E|[E|[E|[rd E]]]]); rewrite E.
  - exact Hp.
  - eapply pins_eq_trans; [exact Hp | apply turn_on_pins].
  - eapply pins_eq_trans; [exact Hp | apply turn_off_pins].
  - eapply pins_eq_trans; [exact Hp | apply watchdog_body_pins].
Qed.

Lemma run_pins cs : ∀ s, pins_eq s (run cs s).
Proof.
  induction cs as [|c cs IH]; intros s; [apply pins_eq_refl|].
  rewrite run_cons. eapply pins_eq_trans; [apply exec_pins | apply IH].
Qed.

(** ** Load *)

(** X10: when the registration of the TEMP name fails, [coil_init] returns
    the error code it was given and stops there: no line is requested or
    driven, no thread is created, and only the registration attempt and
    the failure message are logged. *)
Theorem coil_init_failure_touches_nothing (reg : Z) (created : bool) (s : state) :
  reg < 0 →
  fst (coil_init reg created s) = reg
  ∧ gpio_owned (snd (coil_init reg created s)) = gpio_owned s
  ∧ gpio_level (snd (coil_init reg created s)) = gpio_level s
  ∧ watchdog_thread (snd (coil_init reg created s)) = watchdog_thread s
  ∧ watchdog_awake (snd (coil_init reg created s)) = watchdog_awake s
  ∧ klog (snd (coil_init reg created s))
    = [EPrintk "heater coil module load failed\n"; ERegister 0 TEMP_DEVICE_NAME]
      ++ klog s.
Proof.
  intros Hr. unfold coil_init. rewrite !bind_eq.
  cbn [register_chrdev modify ret get bind fst snd with_major with_event major].
  destruct (Z.ltb_spec reg 0) as [_|]; [|lia].
  destruct (Z.ltb_spec 0 reg) as [|_]; [lia|].
  cbn. repeat split.
Qed.

Lemma coil_init_failure_touches_nothing_witness :
  -16 < 0
  ∧ fst (coil_init (-16) true boot) = -16
  ∧ gpio_owned (snd (coil_init (-16) true boot)) = gpio_owned boot
  ∧ watchdog_awake (snd (coil_init (-16) true boot)) = watchdog_awake boot.
Proof.
  assert (H : -16 < 0) by reflexivity.
  destruct (coil_init_failure_touches_nothing (-16) true boot H)
    as (H1 & H2 & _ & _ & H5 & _).
  split; [exact H|]. split; [exact H1|]. split; [exact H2 | exact H5].
Defined.

Lemma coil_init_lines reg created :
  0 ≤ reg →
  heat_line (snd (coil_init reg created boot)) = Some 0
  ∧ gpio_level (snd (coil_init reg created boot)) !! CS_PIN = Some 1
  ∧ gpio_level (snd (coil_init reg created boot)) !! CLK_PIN = Some 0
  ∧ gpio_level (snd (coil_init reg created boot)) !! DATA_PIN = None
  ∧ gpio_owned (snd (coil_init reg created boot))
    = {[HEAT_PIN]} ∪ ({[DATA_PIN]} ∪ ({[CLK_PIN]} ∪ ({[CS_PIN]} ∪ ∅)))
  ∧ major (snd (coil_init reg created boot)) = reg
  ∧ watchdog_thread (snd (coil_init reg created boot)) = created
  ∧ klog (snd (coil_init reg created boot)) = rev (coil_init_trace reg created).
Proof.
  intros Hr. unfold coil_init, coil_init_trace. rewrite !bind_eq.
  cbn [register_chrdev modify ret get bind fst snd with_major with_event major].
  destruct (Z.ltb_spec reg 0) as [|_]; [lia|].
  destruct (0 <? reg); destruct created; cbn; repeat split.
Qed.


(** ** Invariants of the loaded module *)

Lemma dev_read_temp_bytes stack s :
  0 ≤ temp s ≤ 4095 →
  ∃ pad, dev_read TEMP_MINOR stack 0 s
         = ((5, decimal (temp s) ++ [NL] ++ pad), s)
         ∧ length (decimal (temp s) ++ [NL] ++ pad) = 5%nat.
Proof.
  intros Ht. rewrite dev_read_temp.
  destruct (utoa_in_range (temp s) Ht) as [Hdec Hlen].
  assert (Hu : u16 (temp s) = temp s) by (unfold u16; apply Z.mod_small; lia).
  unfold fmt_hu_nl. rewrite Hu.
  destruct (sprintf_into_5 stack (utoa (temp s)) Hlen) as [H5 [pad Hpad]].
  change (5 - 0)%nat with 5%nat. rewrite (take_ge _ 5) by lia.
  exists pad. rewrite <- Hdec, <- Hpad. split; [reflexivity | exact H5].
Qed.

(** X6: in every state the loaded module reaches through file operations
    and watchdog passes, [heating] is 0 or 1 and the HEAT line is at the
    level [heating] says; a read of STATUS therefore reports the level of
    the line. *)
Theorem status_reports_heat_line (reg : Z) (created : bool) (cs : list call)
    (stack : nat → Z) :
  0 ≤ reg →
  (heating (run cs (snd (coil_init reg created boot))) = 0
   ∨ heating (run cs (snd (coil_init reg created boot))) = 1)
  ∧ heat_line (run cs (snd (coil_init reg created boot)))
    = Some (heating (run cs (snd (coil_init reg created boot))))
  ∧ fst (dev_read STATUS_MINOR stack 0 (run cs (snd (coil_init reg created boot))))
    = (2, [CH0 + heating (run cs (snd (coil_init reg created boot))); NL]).
Proof.
  intros Hr.
  destruct (coil_init_state reg created Hr) as (_ & _ & Hh & _).
  destruct (coil_init_lines reg created Hr) as (Hl & _).
  assert (Hinv : coil_inv (run cs (snd (coil_init reg created boot)))).
  { apply run_invariant; [apply exec_coil_inv|].
    unfold coil_inv. rewrite Hh, Hl. tauto. }
  destruct Hinv as [Hb Hline].
  split; [exact Hb|]. split; [exact Hline|].
  rewrite dev_read_status by exact Hb. reflexivity.
Qed.

Lemma status_reports_heat_line_witness :
  0 ≤ 240
  ∧ heat_line (run [CSample (frame_line 3200);
                    CWrite STATUS_MINOR [CH1] zeroed 0]
                 (snd (coil_init 240 true boot)))
    = Some (heating (run [CSample (frame_line 3200);
                          CWrite STATUS_MINOR [CH1] zeroed 0]
                       (snd (coil_init 240 true boot)))).
Proof.
  assert (H : 0 ≤ 240) by discriminate.
  split; [exact H|].
  exact (proj1 (proj2 (status_reports_heat_line 240 true
    [CSample (frame_line 3200); CWrite STATUS_MINOR [CH1] zeroed 0] zeroed H))).
Defined.

(** X7: in every state the loaded module reaches, [temp] is within
    0..4095, so a read of TEMP whose copy succeeds always returns 5 and
    delivers the decimal numeral of [temp], a newline and padding, five
    bytes in all. *)
Theorem temp_stays_in_range (reg : Z) (created : bool) (cs : list call)
    (stack : nat → Z) :
  0 ≤ reg →
  0 ≤ temp (run cs (snd (coil_init reg created boot))) ≤ 4095
  ∧ ∃ pad,
      fst (dev_read TEMP_MINOR stack 0 (run cs (snd (coil_init reg created boot))))
      = (5, decimal (temp (run cs (snd (coil_init reg created boot))))
            ++ [NL] ++ pad)
      ∧ length (decimal (temp (run cs (snd (coil_init reg created boot))))
                ++ [NL] ++ pad) = 5%nat.
Proof.
  intros Hr.
  destruct (coil_init_state reg created Hr) as (_ & Ht & _).
  assert (Hinv : 0 ≤ temp (run cs (snd (coil_init reg created boot))) ≤ 4095).
  { apply (run_invariant (λ s, 0 ≤ temp s ≤ 4095)); [apply exec_temp_range|].
    rewrite Ht. lia. }
  split; [exact Hinv|].
  destruct (dev_read_temp_bytes stack _ Hinv) as (pad & E & Hlen).
  exists pad. rewrite E. split; [reflexivity | exact Hlen].
Qed.

Lemma temp_stays_in_range_witness :
  0 ≤ 240
  ∧ 0 ≤ temp (run [CSample (frame_line 65535)] (snd (coil_init 240 true boot)))
    ≤ 4095.
Proof.
  assert (H : 0 ≤ 240) by discriminate.
  split; [exact H|].
  exact (proj1 (temp_stays_in_range 240 true [CSample (frame_line 65535)] zeroed H)).
Defined.

(** X8: in every state the loaded module reaches, [heating] set together
    with [temp] above [TEMP_LIMIT_2] does not occur, whether or not the
    watchdog thread was created. *)
Theorem loaded_module_keeps_hard_limit (reg : Z) (created : bool)
    (cs : list call) :
  0 ≤ reg →
  ¬ (heating (run cs (snd (coil_init reg created boot))) ≠ 0
     ∧ TEMP_LIMIT_2 < temp (run cs (snd (coil_init reg created boot)))).
Proof.
  intros Hr.
  destruct (coil_init_state reg created Hr) as (_ & _ & Hh & _).
  assert (Hinv : (λ s, heating s ≠ 0 → temp s ≤ TEMP_LIMIT_2)
                   (run cs (snd (coil_init reg created boot)))).
  { apply run_invariant; [intros c s; apply exec_hard_limit|].
    cbv beta. rewrite Hh. congruence. }
  cbv beta in Hinv. intros [Hon Hhot]. specialize (Hinv Hon). lia.
Qed.

Lemma loaded_module_keeps_hard_limit_witness :
  0 ≤ 240
  ∧ ¬ (heating (run [CWrite STATUS_MINOR [CH1] zeroed 0;
                     CSample (frame_line 21600)]
                  (snd (coil_init 240 true boot))) ≠ 0
       ∧ TEMP_LIMIT_2 < temp (run [CWrite STATUS_MINOR [CH1] zeroed 0;
                                   CSample (frame_line 21600)]
                                (snd (coil_init 240 true boot)))).
Proof.
  assert (H : 0 ≤ 240) by discriminate.
  split; [exact H|].
  exact (loaded_module_keeps_hard_limit 240 true
    [CWrite STATUS_MINOR [CH1] zeroed 0; CSample (frame_line 21600)] H).
Defined.

(** ** Unload *)

Lemma coil_exit_unfold pending s :
  snd (coil_exit pending s)
  = snd (printk "heater coil module has been unloaded\n"
      (snd (gpio_exit
        (snd (kthread_stop pending
          (snd (unregister_chrdev (major s) STATUS_DEVICE_NAME
            (snd (unregister_chrdev (major s) TEMP_DEVICE_NAME s))))))))).
Proof. unfold coil_exit. rewrite !bind_eq. reflexivity. Qed.

Lemma kthread_stop_state pending s :
  gpio_owned (snd (kthread_stop pending s)) = gpio_owned s
  ∧ watchdog_awake (snd (kthread_stop pending s)) = false.
Proof.
  unfold kthread_stop. rewrite !bind_eq.
  cbn [modify get fst snd with_event watchdog_awake].
  destruct (watchdog_awake s); [|split; reflexivity].
  rewrite bind_eq. cbn [ret snd with_thread gpio_owned watchdog_awake].
  destruct (watchdog_fn_pins pending (with_event EKthreadStop s)) as [(Ho & _) _].
  split; [exact Ho | reflexivity].
Qed.

Lemma gpio_exit_state s :
  gpio_owned (snd (gpio_exit s))
  = gpio_owned s ∖ {[CS_PIN]} ∖ {[CLK_PIN]} ∖ {[DATA_PIN]} ∖ {[HEAT_PIN]}
  ∧ watchdog_awake (snd (gpio_exit s)) = watchdog_awake s.
Proof. split; reflexivity. Qed.

Lemma printk_owned msg s : gpio_owned (snd (printk msg s)) = gpio_owned s.
Proof. reflexivity. Qed.

Lemma printk_awake msg s : watchdog_awake (snd (printk msg s)) = watchdog_awake s.
Proof. reflexivity. Qed.

Lemma unregister_owned maj name s :
  gpio_owned (snd (unregister_chrdev maj name s)) = gpio_owned s.
Proof. reflexivity. Qed.

Lemma coil_exit_state pending s :
  gpio_owned (snd (coil_exit pending s))
  = gpio_owned s ∖ {[CS_PIN]} ∖ {[CLK_PIN]} ∖ {[DATA_PIN]} ∖ {[HEAT_PIN]}
  ∧ watchdog_awake (snd (coil_exit pending s)) = false.
Proof.
  rewrite coil_exit_unfold, printk_owned, printk_awake.
  rewrite (proj1 (gpio_exit_state _)), (proj2 (gpio_exit_state _)).
  rewrite (proj1 (kthread_stop_state _ _)), (proj2 (kthread_stop_state _ _)).
  rewrite !unregister_owned. split; reflexivity.
Qed.

Lemma owned_after_exit :
  ({[HEAT_PIN]} ∪ ({[DATA_PIN]} ∪ ({[CLK_PIN]} ∪ ({[CS_PIN]} ∪ (∅ : gset Z)))))
    ∖ {[CS_PIN]} ∖ {[CLK_PIN]} ∖ {[DATA_PIN]} ∖ {[HEAT_PIN]} = ∅.
Proof.
  apply set_eq. intros x.
  rewrite !elem_of_difference, !elem_of_union, !elem_of_singleton.
  pose proof (not_elem_of_empty (C := gset Z) x). tauto.
Qed.

(** X12: [coil_exit] frees the four lines and leaves the watchdog stopped,
    whatever the watchdog was doing; after load, any sequence of file
    operations and watchdog passes, and unload, no line is held. *)
Theorem unload_releases_lines (reg : Z) (created : bool) (cs : list call)
    (pending : list (nat → Z)) (s : state) :
  (gpio_owned (snd (coil_exit pending s))
   = gpio_owned s ∖ {[CS_PIN]} ∖ {[CLK_PIN]} ∖ {[DATA_PIN]} ∖ {[HEAT_PIN]}
   ∧ watchdog_awake (snd (coil_exit pending s)) = false)
  ∧ (0 ≤ reg →
     gpio_owned (snd (coil_exit pending (run cs (snd (coil_init reg created boot)))))
     = ∅).
Proof.
  split; [apply coil_exit_state|]. intros Hr.
  rewrite (proj1 (coil_exit_state pending _)).
  destruct (run_pins cs (snd (coil_init reg created boot))) as (Ho' & _).
  rewrite Ho'.
  destruct (coil_init_lines reg created Hr) as (_ & _ & _ & _ & Ho'' & _).
  rewrite Ho''. apply owned_after_exit.
Qed.

Lemma unload_releases_lines_witness :
  0 ≤ 240
  ∧ gpio_owned (snd (coil_exit [frame_line 3200]
                       (run [CWrite STATUS_MINOR [CH1] zeroed 0]
                          (snd (coil_init 240 true boot))))) = ∅.
Proof.
  assert (H : 0 ≤ 240) by discriminate.
  split; [exact H|].
  exact (proj2 (unload_releases_lines 240 true [CWrite STATUS_MINOR [CH1] zeroed 0]
                  [frame_line 3200] boot) H).
Defined.

(** ** The endpoints *)

(** X13: file operations on a minor other than STATUS change nothing: a
    write is accepted and returns its length without looking at the data,
    open and release return 0, and a read leaves the state as it is. *)
Theorem other_minors_have_no_effect (minor : Z) (buffer : list Z)
    (heap stack : nat → Z) (missed : nat) (s : state) :
  minor ≠ STATUS_MINOR →
  dev_open minor s = (0, s)
  ∧ dev_write minor buffer heap missed s = (Z.of_nat (length buffer), s)
  ∧ dev_release minor s = (0, s)
  ∧ snd (dev_read minor stack missed s) = s.
Proof.
  intros Hm. split; [reflexivity|]. split; [|split; [|apply dev_read_state]].
  - unfold dev_write. destruct (minor =? TEMP_MINOR); [reflexivity|].
    destruct (Z.eqb_spec minor STATUS_MINOR); [contradiction | reflexivity].
  - unfold dev_release.
    destruct (Z.eqb_spec minor STATUS_MINOR); [contradiction | reflexivity].
Qed.

Lemma other_minors_have_no_effect_witness :
  TEMP_MINOR ≠ STATUS_MINOR
  ∧ dev_write TEMP_MINOR [CH1] zeroed 0 loaded = (1, loaded)
  ∧ dev_release TEMP_MINOR heated = (0, heated).
Proof.
  assert (H : TEMP_MINOR ≠ STATUS_MINOR) by discriminate.
  split; [exact H|]. split.
  - exact (proj1 (proj2 (other_minors_have_no_effect TEMP_MINOR [CH1] zeroed
                           zeroed 0 loaded H))).
  - exact (proj1 (proj2 (proj2 (other_minors_have_no_effect TEMP_MINOR [CH1]
                                  zeroed zeroed 0 heated H)))).
Defined.

Lemma map_seq_lookup (f : nat → Z) (n i : nat) :
  (i < n)%nat → map f (seq 0 n) !! i = Some (f i).
Proof.
  intros Hi. change (map f (seq 0 n)) with (f <$> seq 0 n).
  rewrite list_lookup_fmap, lookup_seq_lt by exact Hi. reflexivity.
Qed.

(** The array after [sprintf]: the formatted text where it reaches, the
    prior content of the stack elsewhere. *)
Lemma sprintf_into_lookup size junk out (i : nat) :
  (i < size)%nat →
  sprintf_into size junk out !! i = Some (default (junk i) (out !! i)).
Proof.
  intros Hi. unfold sprintf_into. rewrite lookup_take_lt by exact Hi.
  destruct (Nat.lt_ge_cases i (length out)) as [Hlt|Hge].
  - rewrite lookup_app_l by exact Hlt.
    destruct (lookup_lt_is_Some_2 out i Hlt) as [x Hx]. rewrite Hx. reflexivity.
  - rewrite lookup_app_r by exact Hge. rewrite lookup_drop.
    replace (length out + (i - length out))%nat with i by lia.
    rewrite (lookup_ge_None_2 out i) by exact Hge.
    rewrite map_seq_lookup by exact Hi. reflexivity.
Qed.

Lemma sprintf_into_length size junk out :
  length (sprintf_into size junk out) = size.
Proof.
  unfold sprintf_into.
  rewrite length_take, length_app, length_drop, length_map, length_seq. lia.
Qed.

(** X14: [dev_read] returns [-EFAULT] exactly when the copy to the client
    left bytes uncopied or the minor is neither TEMP nor STATUS; otherwise
    it returns 5 for TEMP and 2 for STATUS and delivers that many bytes,
    whatever [temp] and [heating] hold. *)
Theorem dev_read_fails_iff (minor : Z) (stack : nat → Z) (missed : nat)
    (s : state) :
  (fst (fst (dev_read minor stack missed s)) = - EFAULT
   ↔ missed ≠ 0%nat ∨ (minor ≠ TEMP_MINOR ∧ minor ≠ STATUS_MINOR))
  ∧ (missed = 0%nat → minor = TEMP_MINOR →
     fst (fst (dev_read minor stack missed s)) = 5
     ∧ length (snd (fst (dev_read minor stack missed s))) = 5%nat)
  ∧ (missed = 0%nat → minor = STATUS_MINOR →
     fst (fst (dev_read minor stack missed s)) = 2
     ∧ length (snd (fst (dev_read minor stack missed s))) = 2%nat).
Proof.
  split; [|split].
  - unfold dev_read.
    destruct (Z.eqb_spec minor TEMP_MINOR) as [Ht|Ht].
    { rewrite bind_eq. cbn [get fst snd copy_to_user ret].
      destruct (Z.eqb_spec (Z.of_nat missed) 0) as [Hz|Hz].
      - split; [discriminate|]. intros [H|[H _]]; [lia | contradiction].
      - split; [intros _; left; lia | reflexivity]. }
    destruct (Z.eqb_spec minor STATUS_MINOR) as [Hs|Hs].
    { rewrite bind_eq. cbn [get fst snd copy_to_user ret].
      destruct (Z.eqb_spec (Z.of_nat missed) 0) as [Hz|Hz].
      - split; [discriminate|]. intros [H|[_ H]]; [lia | contradiction].
      - split; [intros _; left; lia | reflexivity]. }
    cbn [ret fst]. split; [intros _; right; tauto | reflexivity].
  - intros -> ->. rewrite dev_read_temp. cbn [fst snd].
    split; [reflexivity|].
    rewrite length_take, sprintf_into_length. reflexivity.
  - intros -> ->. unfold dev_read.
    change (STATUS_MINOR =? TEMP_MINOR) with false.
    change (STATUS_MINOR =? STATUS_MINOR) with true. cbv iota.
    rewrite bind_eq. cbn [get fst snd copy_to_user ret].
    split; [reflexivity|].
    rewrite length_take, sprintf_into_length. reflexivity.
Qed.

Lemma dev_read_fails_iff_witness :
  (3%nat ≠ 0%nat ∨ (STATUS_MINOR ≠ TEMP_MINOR ∧ STATUS_MINOR ≠ STATUS_MINOR))
  ∧ fst (fst (dev_read STATUS_MINOR zeroed 3 heated)) = - EFAULT
  ∧ fst (fst (dev_read TEMP_MINOR zeroed 0 heated)) = 5.
Proof.
  assert (H : 3%nat ≠ 0%nat ∨ (STATUS_MINOR ≠ TEMP_MINOR ∧ STATUS_MINOR ≠ STATUS_MINOR))
    by (left; discriminate).
  split; [exact H|]. split.
  - exact (proj2 (proj1 (dev_read_fails_iff STATUS_MINOR zeroed 3 heated)) H).
  - exact (proj1 (proj1 (proj2 (dev_read_fails_iff TEMP_MINOR zeroed 0 heated))
                    eq_refl eq_refl)).
Defined.

Lemma utoa_len_ok_all : forallb utoa_len_ok (seq 0 4096) = true.
Proof. vm_compute. reflexivity. Qed.

Lemma utoa_length t :
  0 ≤ t ≤ 4095 → length (utoa t) = digits_of t.
Proof.
  intros Ht. pose proof utoa_len_ok_all as H.
  rewrite forallb_forall in H. specialize (H (Z.to_nat t)).
  assert (Hin : In (Z.to_nat t) (seq 0 4096)) by (apply in_seq; lia).
  specialize (H Hin). unfold utoa_len_ok in H. rewrite Z2Nat.id in H by lia.
  apply bool_decide_eq_true in H. exact H.
Qed.

(** X15: the five bytes a read of TEMP delivers are the bytes of
    [temp_string] after [sprintf]: the numeral, the newline and the NUL
    where they reach, and what the stack held before at the other
    offsets.  Below 100 ticks the fifth byte is such a stack byte; from
    1000 ticks on the five bytes are the numeral and the newline, without
    a NUL. *)
Theorem temp_read_bytes (stack : nat → Z) (s : state) :
  0 ≤ temp s ≤ 4095 →
  (∀ i : nat, (i < 5)%nat →
     snd (fst (dev_read TEMP_MINOR stack 0 s)) !! i
     = Some (default (stack i) ((decimal (temp s) ++ [NL; NUL]) !! i)))
  ∧ (temp s < 100 →
     snd (fst (dev_read TEMP_MINOR stack 0 s)) !! 4%nat = Some (stack 4%nat))
  ∧ (1000 ≤ temp s →
     snd (fst (dev_read TEMP_MINOR stack 0 s)) = decimal (temp s) ++ [NL]).
Proof.
  intros Ht. rewrite dev_read_temp. cbn [fst snd].
  change (5 - 0)%nat with 5%nat.
  rewrite (take_ge _ 5) by (rewrite sprintf_into_length; lia).
  destruct (utoa_in_range (temp s) Ht) as [Hdec Hlen4].
  pose proof (utoa_length (temp s) Ht) as Hlen.
  assert (Hu : u16 (temp s) = temp s) by (unfold u16; apply Z.mod_small; lia).
  unfold fmt_hu_nl. rewrite Hu, Hdec in *.
  split; [|split].
  - intros i Hi. apply sprintf_into_lookup. exact Hi.
  - intros Hsmall. rewrite sprintf_into_lookup by lia.
    rewrite lookup_ge_None_2; [reflexivity|].
    rewrite length_app, Hlen. unfold digits_of.
    destruct (Z.ltb_spec (temp s) 10); [cbn; lia|].
    destruct (Z.ltb_spec (temp s) 100); [cbn; lia | lia].
  - intros Hbig.
    assert (H4 : length (decimal (temp s)) = 4%nat).
    { rewrite Hlen. unfold digits_of.
      destruct (Z.ltb_spec (temp s) 10); [lia|].
      destruct (Z.ltb_spec (temp s) 100); [lia|].
      destruct (Z.ltb_spec (temp s) 1000); [lia | reflexivity]. }
    unfold sprintf_into.
    replace (decimal (temp s) ++ [NL; NUL])
      with ((decimal (temp s) ++ [NL]) ++ [NUL])
      by (rewrite <- app_assoc; reflexivity).
    rewrite <- app_assoc.
    rewrite take_app_length' by (rewrite length_app, H4; reflexivity).
    reflexivity.
Qed.

Lemma temp_read_bytes_witness :
  0 ≤ temp loaded ≤ 4095
  ∧ temp loaded < 100
  ∧ snd (fst (dev_read TEMP_MINOR (λ _, 255) 0 loaded)) !! 4%nat = Some 255.
Proof.
  assert (Ht : 0 ≤ temp loaded ≤ 4095) by (vm_compute; split; discriminate).
  assert (Hs : temp loaded < 100) by (vm_compute; reflexivity).
  split; [exact Ht|]. split; [exact Hs|].
  exact (proj1 (proj2 (temp_read_bytes (λ _, 255) loaded Ht)) Hs).
Defined.

(** ** Who can switch the coil on *)

(** X17: the only step that takes [heating] from clear to set is a write
    to the STATUS minor while [temp] is at most [TEMP_LIMIT]; it sets
    [heating] to 1 and drives HEAT high.  No read, open, release, write to
    another minor or watchdog pass does. *)
Theorem only_status_write_engages (c : call) (s : state) :
  heating s = 0 → heating (snd (exec c s)) ≠ 0 →
  (∃ buffer heap missed, c = CWrite STATUS_MINOR buffer heap missed)
  ∧ temp s ≤ TEMP_LIMIT
  ∧ heating (snd (exec c s)) = 1
  ∧ heat_line (snd (exec c s)) = Some 1.
Proof.
  intros H0 H1.
  destruct c as [minor|minor stack missed|minor buffer heap missed|minor|rd].
  - cbn in H1. congruence.
  - rewrite exec_read_state in H1. congruence.
  - cbn [exec] in *. unfold dev_write in *.
    destruct (minor =? TEMP_MINOR); [cbn in H1; congruence|].
    destruct (Z.eqb_spec minor STATUS_MINOR) as [->|_]; [|cbn in H1; congruence].
    split; [by exists buffer, heap, missed|].
    rewrite !bind_eq in *. cbn [ret snd] in *.
    set (r := read_char _ heap 0 s) in *.
    destruct (read_char_coil
      (snd (copy_from_user (kmalloc (length buffer) heap) buffer
              (length buffer) missed)) heap 0 s) as (Hh & Ht & _).
    fold r in Hh, Ht.
    destruct (fst r =? CH1).
    + destruct (turn_on_cases (snd r)) as [R|(Hle & E1 & E2 & _)].
      * rewrite R in H1. cbn [snd] in H1. congruence.
      * rewrite <- Ht. tauto.
    + destruct (turn_off_state (snd r)) as (Hz & _). congruence.
  - cbn [exec] in H1. destruct (dev_release_state minor s) as [E|[_ E]];
      rewrite E in H1; [congruence|].
    destruct (turn_off_state s) as (Hz & _). congruence.
  - rewrite exec_sample_state in H1. destruct (watchdog_awake s); [|congruence].
    destruct (watchdog_body_cases rd s) as [(_ & _ & Hz & _)|(_ & Hh & _)];
      congruence.
Qed.

Lemma only_status_write_engages_witness :
  heating loaded = 0
  ∧ heating (snd (exec (CWrite STATUS_MINOR [CH1] zeroed 0) loaded)) ≠ 0
  ∧ temp loaded ≤ TEMP_LIMIT
  ∧ heat_line (snd (exec (CWrite STATUS_MINOR [CH1] zeroed 0) loaded)) = Some 1.
Proof.
  assert (H0 : heating loaded = 0) by reflexivity.
  assert (H1 : heating (snd (exec (CWrite STATUS_MINOR [CH1] zeroed 0) loaded)) ≠ 0)
    by (vm_compute; discriminate).
  destruct (only_status_write_engages (CWrite STATUS_MINOR [CH1] zeroed 0) loaded
              H0 H1) as (_ & Ht & _ & Hl).
  split; [exact H0|]. split; [exact H1|]. split; [exact Ht | exact Hl].
Defined.

(** * The calls with the kernel's answers *)

Lemma lift_eq {A} (m : M A) s : lift m s = Returns (fst (m s)) (snd (m s)).
Proof. unfold lift. destruct (m s). reflexivity. Qed.

Lemma not_status_temp : (STATUS_MINOR =? TEMP_MINOR) = false.
Proof. reflexivity. Qed.

(** Where a write faults, and that it otherwise does what [dev_write]
    above says. *)
Lemma kernel_dev_write_outcome minor buffer heap missed ok s :
  Kernel.dev_write minor buffer heap missed ok s
  = match buffer with
    | [] => if minor =? STATUS_MINOR then Oops (FaultRead KZeroSize 0) s
            else Returns 0 s
    | _ :: _ =>
        if ok then Returns (fst (dev_write minor buffer heap missed s))
                           (snd (dev_write minor buffer heap missed s))
        else Oops (FaultCopyTo KNull) s
    end.
Proof.
  destruct buffer as [|b rest].
  - unfold Kernel.dev_write, Kernel.kmalloc, Kernel.copy_from_user, kbind, kret.
    cbn [length snd].
    destruct (Z.eqb_spec minor TEMP_MINOR) as [->|_]; [reflexivity|].
    destruct (minor =? STATUS_MINOR); reflexivity.
  - unfold Kernel.dev_write, Kernel.kmalloc, Kernel.copy_from_user.
    cbn [length]. destruct ok; [|reflexivity].
    unfold kbind at 1, kret at 1. cbn [snd].
    unfold dev_write. cbn [length].
    destruct (minor =? TEMP_MINOR); [reflexivity|].
    destruct (minor =? STATUS_MINOR); [|reflexivity].
    unfold Kernel.read_char, kbind, kret. rewrite lift_eq, !bind_eq.
    rewrite lift_eq. reflexivity.
Qed.

Lemma copied_first b rest heap missed :
  snd (copy_from_user (kmalloc (length (b :: rest)) heap) (b :: rest)
                      (length (b :: rest)) missed) !! 0%nat
  = Some (if (missed <=? length rest)%nat then b else 0).
Proof.
  unfold copy_from_user, kmalloc. cbn [snd length].
  rewrite length_map, length_seq.
  destruct (Nat.leb_spec missed (length rest)) as [Hle|Hgt].
  - destruct (S (length rest) - missed)%nat as [|k] eqn:E; [lia|]. reflexivity.
  - replace (S (length rest) - missed)%nat with 0%nat by lia. reflexivity.
Qed.

Lemma dev_write_status_first b rest heap missed s :
  dev_write STATUS_MINOR (b :: rest) heap missed s
  = (Z.of_nat (length (b :: rest)),
     snd ((if (if (missed <=? length rest)%nat then b else 0) =? CH1
           then turn_heating_coil_on else turn_heating_coil_off) s)).
Proof.
  unfold dev_write. change (STATUS_MINOR =? TEMP_MINOR) with false.
  change (STATUS_MINOR =? STATUS_MINOR) with true. cbv iota.
  rewrite !bind_eq. unfold read_char. rewrite copied_first. reflexivity.
Qed.

(** C9 (as amended): in a write of at least one byte to STATUS for which
    [kmalloc] had memory, the buffer that [user_input[0]] reads has as
    many bytes as the write, so the read lies inside it, and the call
    returns the length.  A write of no bytes is not turned down with
    [-EINVAL]: it reads index 0 through the zero-size pointer; that read
    faults and the call does not return.  A write of at least one byte
    for which [kmalloc] had no memory faults in the copy. *)
Theorem status_write_first_byte_access (buffer : list Z) (heap : nat → Z)
    (missed : nat) (s : state) :
  (buffer ≠ [] →
     ∃ bytes b,
       Kernel.copy_from_user (Kernel.kmalloc (length buffer) true heap) buffer
         (length buffer) missed s
       = Returns (Z.of_nat missed, KBuf bytes) s
       ∧ length bytes = length buffer
       ∧ bytes !! 0%nat = Some b
       ∧ Kernel.dev_write STATUS_MINOR buffer heap missed true s
         = Returns (Z.of_nat (length buffer))
             (snd ((if b =? CH1 then turn_heating_coil_on
                    else turn_heating_coil_off) s)))
  ∧ (buffer = [] → ∀ ok,
       Kernel.dev_write STATUS_MINOR buffer heap missed ok s
       = Oops (FaultRead KZeroSize 0) s)
  ∧ (buffer ≠ [] →
       Kernel.dev_write STATUS_MINOR buffer heap missed false s
       = Oops (FaultCopyTo KNull) s).
Proof.
  split; [|split].
  - intros Hne. destruct buffer as [|b0 rest]; [congruence|].
    exists (snd (copy_from_user (kmalloc (length (b0 :: rest)) heap) (b0 :: rest)
                   (length (b0 :: rest)) missed)).
    exists (if (missed <=? length rest)%nat then b0 else 0).
    split; [reflexivity|]. split; [apply copied_length|].
    split; [apply copied_first|].
    rewrite kernel_dev_write_outcome, dev_write_status_first. reflexivity.
  - intros -> ok. rewrite kernel_dev_write_outcome. reflexivity.
  - intros Hne. destruct buffer as [|b0 rest]; [congruence|].
    rewrite kernel_dev_write_outcome. reflexivity.
Qed.

Lemma status_write_first_byte_access_witness :
  ([CH1] ≠ []
   ∧ Kernel.dev_write STATUS_MINOR [CH1] zeroed 0 false loaded
     = Oops (FaultCopyTo KNull) loaded)
  ∧ (@nil Z = []
     ∧ Kernel.dev_write STATUS_MINOR [] zeroed 0 true loaded
       = Oops (FaultRead KZeroSize 0) loaded).
Proof.
  assert (H1 : [CH1] ≠ []) by discriminate.
  split.
  - split; [exact H1|].
    exact (proj2 (proj2 (status_write_first_byte_access [CH1] zeroed 0 loaded)) H1).
  - split; [reflexivity|].
    exact (proj1 (proj2 (status_write_first_byte_access [] zeroed 0 loaded))
             eq_refl true).
Defined.

(** C9 as stated fails: a write of no bytes to STATUS does not return 0.
    The read of [user_input[0]] goes through the zero-size pointer and
    faults; and with one byte and no memory from [kmalloc] the first byte
    is never inspected, the copy faults before. *)
Lemma zero_length_status_write_faults :
  Kernel.dev_write STATUS_MINOR [] zeroed 0 true loaded
  = Oops (FaultRead KZeroSize 0) loaded
  ∧ (∀ s', Kernel.dev_write STATUS_MINOR [] zeroed 0 true loaded ≠ Returns 0 s')
  ∧ Kernel.dev_write STATUS_MINOR [CH1] zeroed 0 false loaded
    = Oops (FaultCopyTo KNull) loaded.
Proof.
  split; [reflexivity|]. split; [|reflexivity].
  intros s' H. rewrite kernel_dev_write_outcome in H. discriminate.
Qed.

(** X16: in a write to STATUS for which [kmalloc] had memory, the decision
    is taken on [user_input[0]] whatever [copy_from_user] returned, and the
    full length is returned.  If the fault came after the first byte the
    write acts as if the copy had succeeded; if nothing was copied the
    byte is the zero the copy left there, and the coil is switched off
    whatever the client had written. *)
Theorem status_write_partial_fault (b : Z) (rest : list Z) (heap : nat → Z)
    (missed : nat) (s : state) :
  ((missed ≤ length rest)%nat →
     Kernel.dev_write STATUS_MINOR (b :: rest) heap missed true s
     = Kernel.dev_write STATUS_MINOR (b :: rest) heap 0 true s)
  ∧ ((length rest < missed)%nat →
     Kernel.dev_write STATUS_MINOR (b :: rest) heap missed true s
     = Returns (Z.of_nat (length (b :: rest))) (snd (turn_heating_coil_off s))).
Proof.
  rewrite !kernel_dev_write_outcome, !dev_write_status_first. cbn [fst snd].
  split; intros Hm.
  - destruct (Nat.leb_spec missed (length rest)); [|lia].
    destruct (Nat.leb_spec 0 (length rest)); [reflexivity | lia].
  - destruct (Nat.leb_spec missed (length rest)); [lia | reflexivity].
Qed.

Lemma status_write_partial_fault_witness :
  ((1 ≤ length [CH0])%nat
   ∧ Kernel.dev_write STATUS_MINOR [CH1; CH0] zeroed 1 true loaded
     = Kernel.dev_write STATUS_MINOR [CH1; CH0] zeroed 0 true loaded)
  ∧ ((length (@nil Z) < 1)%nat
     ∧ Kernel.dev_write STATUS_MINOR [CH1] (λ _, CH1) 1 true heated
       = Returns (Z.of_nat (length [CH1])) (snd (turn_heating_coil_off heated))).
Proof.
  assert (H1 : (1 ≤ length [CH0])%nat) by (cbn; lia).
  assert (H2 : (length (@nil Z) < 1)%nat) by (cbn; lia).
  split.
  - split; [exact H1|].
    exact (proj1 (status_write_partial_fault CH1 [CH0] zeroed 1 loaded) H1).
  - split; [exact H2|].
    exact (proj2 (status_write_partial_fault CH1 [] (λ _, CH1) 1 heated) H2).
Defined.

(** ** Load with the kernel's answers *)

Lemma kbind_lift {A B} (m : M A) (k : A → K B) s :
  kbind (lift m) k s = k (fst (m s)) (snd (m s)).
Proof. unfold kbind. rewrite lift_eq. reflexivity. Qed.

(** Up to the creation of the thread a load that got its major does the
    same whatever the thread pointer is. *)
Lemma kernel_coil_init_unfold reg granted task s :
  0 ≤ reg →
  Kernel.coil_init reg granted task s
  = (lift (modify (λ s, with_thread (Kernel.not_null task) (watchdog_awake s) s)) >>!
     (if Kernel.not_null task then Kernel.wake_up_process task else kret tt) >>!
     lift (printk "heater coil module has been loaded: %d\n") >>!
     kret 0)
      (snd (Kernel.kthread_create "heater_watchdog_thread" task
         (snd (Kernel.gpio_init granted
            (snd ((if 0 <? reg
                   then register_chrdev reg STATUS_DEVICE_NAME 0 >> ret tt
                   else ret tt)
                    (with_major reg
                       (with_event (ERegister 0 TEMP_DEVICE_NAME) s)))))))).
Proof.
  intros Hr. unfold Kernel.coil_init. rewrite !kbind_lift.
  cbn [register_chrdev modify ret get bind fst snd with_major with_event major].
  destruct (Z.ltb_spec reg 0) as [|_]; [lia|].
  rewrite !kbind_lift. reflexivity.
Qed.

(** When [kthread_create] hands back an error pointer the test for NULL
    lets it through and the wake-up faults: the load does not return. *)
Lemma kernel_coil_init_error reg granted e s :
  0 ≤ reg →
  ∃ s', Kernel.coil_init reg granted (TaskErr e) s = Oops (FaultWake (TaskErr e)) s'
        ∧ watchdog_awake s' = watchdog_awake s
        ∧ temp s' = temp s ∧ heating s' = heating s.
Proof.
  intros Hr. rewrite kernel_coil_init_unfold by exact Hr.
  eexists. split.
  - rewrite kbind_lift. cbn [Kernel.not_null]. unfold kbind at 1.
    cbn [Kernel.wake_up_process oops]. reflexivity.
  - unfold Kernel.gpio_init, Kernel.gpio_request.
    destruct (granted HEAT_PIN); destruct (granted DATA_PIN);
      destruct (granted CLK_PIN); destruct (granted CS_PIN);
      destruct (0 <? reg); cbn; repeat split.
Qed.

(** The case the test for NULL provides for: no wake-up, and 0 returned. *)
Lemma kernel_coil_init_null reg granted s :
  0 ≤ reg →
  ∃ s', Kernel.coil_init reg granted TaskNull s = Returns 0 s'
        ∧ watchdog_awake s' = watchdog_awake s.
Proof.
  intros Hr. rewrite kernel_coil_init_unfold by exact Hr.
  eexists. split.
  - rewrite kbind_lift. cbn [Kernel.not_null]. unfold kbind at 1, kret at 1.
    rewrite kbind_lift. reflexivity.
  - unfold Kernel.gpio_init, Kernel.gpio_request.
    destruct (granted HEAT_PIN); destruct (granted DATA_PIN);
      destruct (granted CLK_PIN); destruct (granted CS_PIN);
      destruct (0 <? reg); cbn; reflexivity.
Qed.

(** C10: the TEMP name is registered and [kthread_create] has no memory
    for the thread.  It hands back an error pointer, which is not NULL;
    [coil_init] calls [wake_up_process] on it and faults there instead of
    returning 0.  The names stay registered and the lines configured, no
    watchdog is awake, [temp] stays 0 through any calls that follow, and a
    write of '1' to STATUS switches the coil on. *)
Theorem init_wakes_error_pointer :
  Kernel.coil_init 240 all_granted (TaskErr ENOMEM) boot
  = Oops (FaultWake (TaskErr ENOMEM)) stuck
  ∧ (∀ s, Kernel.coil_init 240 all_granted (TaskErr ENOMEM) boot ≠ Returns 0 s)
  ∧ ERegister 0 TEMP_DEVICE_NAME ∈ klog stuck
  ∧ heat_line stuck = Some 0
  ∧ watchdog_awake stuck = false
  ∧ (∀ cs, watchdog_awake (run cs stuck) = false ∧ temp (run cs stuck) = 0)
  ∧ heating (snd (exec (CWrite STATUS_MINOR [CH1] zeroed 0) stuck)) = 1
  ∧ heat_line (snd (exec (CWrite STATUS_MINOR [CH1] zeroed 0) stuck)) = Some 1.
Proof.
  assert (E : Kernel.coil_init 240 all_granted (TaskErr ENOMEM) boot
              = Oops (FaultWake (TaskErr ENOMEM)) stuck) by reflexivity.
  split; [exact E|]. split; [intros s H; rewrite E in H; discriminate|].
  split; [apply list_elem_of_In; vm_compute; tauto|].
  split; [reflexivity|]. split; [reflexivity|].
  split; [|split; reflexivity].
  intros cs. destruct (run_unwatched cs stuck) as [Ha Ht]; [reflexivity|].
  split; [exact Ha|]. rewrite Ht. reflexivity.
Qed.

Lemma owned_granted (granted : Z → bool) (pin : Z) :
  pin ∈ (if granted HEAT_PIN then {[HEAT_PIN]} else ∅)
        ∪ ((if granted DATA_PIN then {[DATA_PIN]} else ∅)
           ∪ ((if granted CLK_PIN then {[CLK_PIN]} else ∅)
              ∪ ((if granted CS_PIN then {[CS_PIN]} else (∅ : gset Z)))))
  ↔ (pin = CS_PIN ∨ pin = CLK_PIN ∨ pin = DATA_PIN ∨ pin = HEAT_PIN)
    ∧ granted pin = true.
Proof.
  rewrite !elem_of_union.
  pose proof (not_elem_of_empty (C := gset Z) pin) as Hemp.
  destruct (granted HEAT_PIN) eqn:E1; destruct (granted DATA_PIN) eqn:E2;
    destruct (granted CLK_PIN) eqn:E3; destruct (granted CS_PIN) eqn:E4;
    rewrite ?elem_of_singleton; split;
    try (intros [H|[H|[H|H]]]; try contradiction; subst pin; tauto);
    intros [[H|[H|[H|H]]] Hg]; subst pin; try congruence; tauto.
Qed.

Lemma kernel_gpio_init_state granted s :
  klog (snd (Kernel.gpio_init granted s)) = rev gpio_init_trace ++ klog s
  ∧ gpio_level (snd (Kernel.gpio_init granted s))
    = <[CLK_PIN := 0]> (<[CS_PIN := 1]> (<[HEAT_PIN := 0]> (gpio_level s)))
  ∧ gpio_owned (snd (Kernel.gpio_init granted s))
    = (if granted HEAT_PIN then {[HEAT_PIN]} else ∅)
      ∪ ((if granted DATA_PIN then {[DATA_PIN]} else ∅)
         ∪ ((if granted CLK_PIN then {[CLK_PIN]} else ∅)
            ∪ ((if granted CS_PIN then {[CS_PIN]} else ∅) ∪ gpio_owned s)))
  ∧ watchdog_awake (snd (Kernel.gpio_init granted s)) = watchdog_awake s
  ∧ major (snd (Kernel.gpio_init granted s)) = major s.
Proof.
  unfold Kernel.gpio_init, Kernel.gpio_request.
  destruct (granted HEAT_PIN); destruct (granted DATA_PIN);
    destruct (granted CLK_PIN); destruct (granted CS_PIN);
    cbn; rewrite ?(left_id_L ∅ (∪)); repeat split.
Qed.

Lemma kernel_coil_init_task reg granted addr s :
  0 ≤ reg →
  Kernel.coil_init reg granted (TaskAt addr) s
  = Returns 0
      (snd (printk "heater coil module has been loaded: %d\n"
        (snd (wake_up_process
          (with_thread true
             (watchdog_awake (after_thread reg granted (TaskAt addr) s))
             (after_thread reg granted (TaskAt addr) s)))))).
Proof.
  intros Hr. rewrite kernel_coil_init_unfold by exact Hr.
  rewrite kbind_lift. cbn [Kernel.not_null Kernel.wake_up_process].
  rewrite kbind_lift, kbind_lift. reflexivity.
Qed.

(** X11: when the TEMP name was registered and [kthread_create] handed
    back a task, [coil_init] returns 0 after registering the TEMP name,
    the STATUS name only when the major it got is positive, requesting the
    four lines, putting HEAT low, CS high, CLK low and DATA to input,
    creating the thread and waking it, in this order.  The lines held
    afterwards are those of the four whose request was granted; the others
    are configured all the same. *)
Theorem coil_init_sets_up_lines (reg : Z) (granted : Z → bool) (addr : Z) :
  0 ≤ reg →
  ∃ s, Kernel.coil_init reg granted (TaskAt addr) boot = Returns 0 s
    ∧ klog s = rev (coil_init_trace reg true)
    ∧ heat_line s = Some 0
    ∧ gpio_level s !! CS_PIN = Some 1
    ∧ gpio_level s !! CLK_PIN = Some 0
    ∧ gpio_level s !! DATA_PIN = None
    ∧ (∀ pin, pin ∈ gpio_owned s
              ↔ (pin = CS_PIN ∨ pin = CLK_PIN ∨ pin = DATA_PIN ∨ pin = HEAT_PIN)
                ∧ granted pin = true)
    ∧ major s = reg
    ∧ watchdog_awake s = true.
Proof.
  intros Hr. eexists. split; [apply kernel_coil_init_task, Hr|].
  unfold after_thread. set (y := after_registration reg boot).
  destruct (kernel_gpio_init_state granted y) as (Hlog & Hlev & Hown & _ & Hmaj).
  cbn [printk wake_up_process Kernel.kthread_create modify ret bind fst snd
       with_event with_thread klog heat_line gpio_level gpio_owned major
       watchdog_awake].
  unfold heat_line. cbn [gpio_level with_event with_thread].
  rewrite Hlog, Hlev, Hmaj.
  assert (Hy : klog y = (if 0 <? reg then [ERegister reg STATUS_DEVICE_NAME] else [])
                        ++ [ERegister 0 TEMP_DEVICE_NAME]
               ∧ gpio_level y = ∅ ∧ gpio_owned y = ∅ ∧ major y = reg).
  { unfold y, after_registration. destruct (0 <? reg); cbn; repeat split. }
  destruct Hy as (Hylog & Hylev & Hyown & Hymaj).
  split.
  { rewrite Hylog. unfold coil_init_trace. rewrite !rev_app_distr.
    destruct (0 <? reg); reflexivity. }
  rewrite Hylev.
  split; [reflexivity|]. split; [reflexivity|]. split; [reflexivity|].
  split; [reflexivity|]. split; [|split; [exact Hymaj | reflexivity]].
  intros pin. rewrite Hown, Hyown, (right_id_L ∅ (∪)). apply owned_granted.
Qed.

Lemma coil_init_sets_up_lines_witness :
  0 ≤ 240
  ∧ ∃ s, Kernel.coil_init 240 (λ pin, negb (pin =? DATA_PIN)) (TaskAt 1) boot
         = Returns 0 s
       ∧ heat_line s = Some 0
       ∧ watchdog_awake s = true.
Proof.
  assert (H : 0 ≤ 240) by discriminate.
  split; [exact H|].
  destruct (coil_init_sets_up_lines 240 (λ pin, negb (pin =? DATA_PIN)) 1 H)
    as (s & E & _ & Hl & _ & _ & _ & _ & _ & Ha).
  exists s. split; [exact E|]. split; [exact Hl | exact Ha].
Defined.

(** With every line free and a task handed back, the load is the one the
    invariants above start from. *)
Lemma kernel_coil_init_granted reg addr s :
  Kernel.coil_init reg all_granted (TaskAt addr) s
  = Returns (fst (coil_init reg true s)) (snd (coil_init reg true s)).
Proof.
  destruct (Z.ltb_spec reg 0) as [Hneg|Hpos].
  - unfold Kernel.coil_init, coil_init. rewrite !kbind_lift, !bind_eq.
    cbn [register_chrdev modify ret get bind fst snd with_major with_event major].
    destruct (Z.ltb_spec reg 0) as [_|]; [|lia].
    destruct (Z.ltb_spec 0 reg) as [|_]; [lia|].
    rewrite kbind_lift. reflexivity.
  - rewrite kernel_coil_init_task by exact Hpos.
    unfold coil_init, after_thread, after_registration. rewrite !bind_eq.
    cbn [register_chrdev modify ret get bind fst snd with_major with_event major].
    destruct (Z.ltb_spec reg 0) as [|_]; [lia|].
    destruct (0 <? reg); reflexivity.
Qed.
